(** * Verification of the Razorpay relay server

    The development embeds the two implementations of the payment
    endpoints that the repository contains,

      - the handlers registered on the Express application in
        [server.js], and
      - the handlers exported by [controller /paymentController.js]
        (the ones [routes/paymentRoutes.js] mounts),

    and proves the properties of the signature check and of the capture
    state machine.

    Layout:
      - [Sha256], [Hmac]   the keyed hash that [crypto.createHmac] computes;
      - [Js]               the fragment of JavaScript values and coercions
                           that the handlers use;
      - [Gateway]          the calls made through the Razorpay SDK, and the
                           monad in which a handler runs;
      - [Server], [Controller]  the handlers themselves;
      - [Request], [Sample]     the vocabulary of the statements, and the
                           requests and gateways of the examples;
      - [Unfolding], [TrimFacts], [DigestFacts]  supporting lemmas;
      - the properties (section [Properties]) and their examples.

    Logging ([utils/logger]) appends to a file and to the console and
    returns nothing to the handlers; it is left out, except that a
    logging call which reads the properties of a caught error is kept as
    such a read, since reading a property of [undefined] throws. *)

From Stdlib Require Import ZArith List String Ascii Bool Lia.
From Stdlib Require Import PrimFloat FloatOps SpecFloat Uint63 DecimalString.
Import ListNotations.

Local Open Scope Z_scope.
Local Open Scope list_scope.

(* ================================================================== *)
(** ** SHA-256 (FIPS 180-4) on 32-bit words kept in [Z]                *)
(* ================================================================== *)

Module Sha256.

Definition word_mask : Z := 0xffffffff.

(** Reduction to a 32-bit word; every addition below wraps through it. *)
Definition w32 (x : Z) : Z := Z.land x word_mask.

Definition add32 (x y : Z) : Z := w32 (x + y).

Definition rotr (n x : Z) : Z :=
  Z.lor (Z.shiftr x n) (w32 (Z.shiftl x (32 - n))).

Definition not32 (x : Z) : Z := Z.lxor x word_mask.

Definition Ch (x y z : Z) : Z := Z.lxor (Z.land x y) (Z.land (not32 x) z).
Definition Maj (x y z : Z) : Z :=
  Z.lxor (Z.lxor (Z.land x y) (Z.land x z)) (Z.land y z).

Definition Sigma0 (x : Z) : Z := Z.lxor (Z.lxor (rotr 2 x) (rotr 13 x)) (rotr 22 x).
Definition Sigma1 (x : Z) : Z := Z.lxor (Z.lxor (rotr 6 x) (rotr 11 x)) (rotr 25 x).
Definition sigma0 (x : Z) : Z := Z.lxor (Z.lxor (rotr 7 x) (rotr 18 x)) (Z.shiftr x 3).
Definition sigma1 (x : Z) : Z := Z.lxor (Z.lxor (rotr 17 x) (rotr 19 x)) (Z.shiftr x 10).

(** The constants are defined as the standard defines them: the first
    32 bits of the fractional parts of the square roots (for the initial
    hash value) and of the cube roots (for the round constants) of the
    first primes. *)
Definition primes : list Z :=
  [2; 3; 5; 7; 11; 13; 17; 19; 23; 29; 31; 37; 41; 43; 47; 53;
   59; 61; 67; 71; 73; 79; 83; 89; 97; 101; 103; 107; 109; 113; 127; 131;
   137; 139; 149; 151; 157; 163; 167; 173; 179; 181; 191; 193; 197; 199; 211; 223;
   227; 229; 233; 239; 241; 251; 257; 263; 269; 271; 277; 281; 283; 293; 307; 311].

(** The integer cube root, by bisection of [lo, lo + 2^bits). *)
Fixpoint cube_root_from (bits : nat) (lo n : Z) : Z :=
  match bits with
  | O => lo
  | S bits' =>
      let mid := lo + 2 ^ Z.of_nat bits' in
      if mid * mid * mid <=? n
      then cube_root_from bits' mid n
      else cube_root_from bits' lo n
  end.

Definition frac_sqrt32 (p : Z) : Z := w32 (Z.sqrt (p * 2 ^ 64)).
Definition frac_cbrt32 (p : Z) : Z := w32 (cube_root_from 36 0 (p * 2 ^ 96)).

Definition H0 : list Z := Eval vm_compute in map frac_sqrt32 (firstn 8 primes).

Definition K : list Z := Eval vm_compute in map frac_cbrt32 primes.

(** Big-endian packing of four bytes into a word, and back. *)
Fixpoint words_of_bytes (bs : list Z) : list Z :=
  match bs with
  | b0 :: b1 :: b2 :: b3 :: rest =>
      Z.lor (Z.shiftl b0 24) (Z.lor (Z.shiftl b1 16) (Z.lor (Z.shiftl b2 8) b3))
      :: words_of_bytes rest
  | _ => []
  end.

Definition bytes_of_word (x : Z) : list Z :=
  [Z.land (Z.shiftr x 24) 0xff; Z.land (Z.shiftr x 16) 0xff;
   Z.land (Z.shiftr x 8) 0xff; Z.land x 0xff].

(** Padding: a one bit, zeros up to 56 modulo 64 bytes, then the bit
    length of the message on eight bytes. *)
Definition pad (msg : list Z) : list Z :=
  let len := Z.of_nat (List.length msg) in
  let zeros := Z.to_nat ((55 - len) mod 64) in
  let bits := 8 * len in
  msg ++ [0x80] ++ repeat 0 zeros
      ++ bytes_of_word (Z.shiftr bits 32) ++ bytes_of_word (w32 bits).

(** The message schedule: sixteen words of the block, extended to 64. *)
Fixpoint extend (n : nat) (ws : list Z) : list Z :=
  match n with
  | O => ws
  | S n' =>
      let t := List.length ws in
      let at_ (k : nat) := nth (t - k) ws 0 in
      extend n' (ws ++ [add32 (add32 (sigma1 (at_ 2%nat)) (at_ 7%nat))
                              (add32 (sigma0 (at_ 15%nat)) (at_ 16%nat))])
  end.

Definition schedule (block : list Z) : list Z := extend 48 block.

Record regs : Type := mkRegs
  { ra : Z; rb : Z; rc : Z; rd : Z; re : Z; rf : Z; rg : Z; rh : Z }.

Definition round (s : regs) (kw : Z * Z) : regs :=
  let (k, w) := kw in
  let t1 := add32 (add32 (add32 (rh s) (Sigma1 (re s)))
                         (add32 (Ch (re s) (rf s) (rg s)) k)) w in
  let t2 := add32 (Sigma0 (ra s)) (Maj (ra s) (rb s) (rc s)) in
  mkRegs (add32 t1 t2) (ra s) (rb s) (rc s) (add32 (rd s) t1) (re s) (rf s) (rg s).

Definition regs_of_list (h : list Z) : regs :=
  mkRegs (nth 0 h 0) (nth 1 h 0) (nth 2 h 0) (nth 3 h 0)
         (nth 4 h 0) (nth 5 h 0) (nth 6 h 0) (nth 7 h 0).

Definition list_of_regs (s : regs) : list Z :=
  [ra s; rb s; rc s; rd s; re s; rf s; rg s; rh s].

Definition compress (h : list Z) (block : list Z) : list Z :=
  let s := fold_left round (combine K (schedule block)) (regs_of_list h) in
  map (fun p : Z * Z => add32 (fst p) (snd p)) (combine h (list_of_regs s)).

Fixpoint blocks (n : nat) (ws : list Z) : list (list Z) :=
  match n with
  | O => []
  | S n' =>
      match ws with
      | [] => []
      | _ => firstn 16 ws :: blocks n' (skipn 16 ws)
      end
  end.

(** The digest of a byte sequence, as 32 bytes. *)
Definition digest (msg : list Z) : list Z :=
  let ws := words_of_bytes (pad msg) in
  flat_map bytes_of_word (fold_left compress (blocks (List.length ws) ws) H0).

End Sha256.

(* ================================================================== *)
(** ** HMAC (RFC 2104) over SHA-256, and what [crypto] does with text  *)
(* ================================================================== *)

Module Hmac.

Definition block_size : nat := 64.

(** A key longer than a block is hashed first; the key is then filled
    with zeros up to the block size. *)
Definition block_key (key : list Z) : list Z :=
  let k := if (block_size <? List.length key)%nat then Sha256.digest key else key in
  k ++ repeat 0 (block_size - List.length k).

Definition hmac_sha256 (key msg : list Z) : list Z :=
  let k := block_key key in
  let ipad := map (Z.lxor 0x36) k in
  let opad := map (Z.lxor 0x5c) k in
  Sha256.digest (opad ++ Sha256.digest (ipad ++ msg)).

(** Strings are kept as the bytes of their UTF-8 encoding, which is what
    [createHmac(alg, key)] and [update(text)] feed to the hash. *)
Definition bytes_of_string (s : string) : list Z :=
  map (fun c => Z.of_N (N_of_ascii c)) (list_ascii_of_string s).

Definition hex_digit (n : Z) : ascii :=
  if n <? 10 then ascii_of_N (Z.to_N (48 + n)) else ascii_of_N (Z.to_N (87 + n)).

(** [digest('hex')]: two lowercase digits for each byte. *)
Fixpoint hex (bs : list Z) : string :=
  match bs with
  | [] => EmptyString
  | b :: rest => String (hex_digit (Z.shiftr b 4)) (String (hex_digit (Z.land b 0xf)) (hex rest))
  end.

(** [crypto.createHmac('sha256', key).update(text).digest('hex')] *)
Definition createHmac_sha256_hex (key text : string) : string :=
  hex (hmac_sha256 (bytes_of_string key) (bytes_of_string text)).

End Hmac.

Local Open Scope string_scope.

(* ================================================================== *)
(** ** JavaScript values and the coercions the handlers rely on        *)
(* ================================================================== *)

Module Js.

(** The values that reach the handlers are JSON data: the request body
    parsed by [express.json()] and the objects the SDK parses out of the
    gateway's replies.  Numbers are IEEE 754 doubles; an object is the
    list of its own properties, each name occurring once; text is kept
    as the bytes of its UTF-8 encoding, so that equality of texts is
    equality of these bytes. *)
#[warnings="-register-all"]
Inductive value : Type :=
| JUndefined
| JNull
| JBool (b : bool)
| JNum (x : float)
| JStr (s : string)
| JArr (items : list value)
| JObj (fields : list (string * value)).

(** How an evaluation ends: with a value, with a thrown value (a
    rejected promise, once awaited, is a throw), or never, when an
    awaited promise does not settle. *)
Inductive result (A : Type) : Type :=
| Ok (a : A)
| Throw (e : value)
| Hang.
Arguments Ok {A} a.
Arguments Throw {A} e.
Arguments Hang {A}.

(** The parts of the runtime that are taken as given: the text of a
    number (Number::toString), the number a text denotes
    (StringToNumber) and [Math.floor]. *)
Class Runtime : Type :=
  { NumberToString : float -> string;
    StringToNumber : string -> float;
    MathFloor : float -> float }.

(** [new Error(msg)] and the engine's [TypeError]s, as far as the
    handlers look at them: through their [message].  The wording of the
    engine's own messages varies with the engine; the two texts below
    stand for it. *)
Definition Error (msg : string) : value := JObj [("message", JStr msg)].

Definition TypeError_not_primitive : value :=
  Error "Cannot convert object to primitive value".
Definition TypeError_nullish_read : value :=
  Error "Cannot read properties of undefined or null".

Fixpoint lookup (k : string) (fields : list (string * value)) : option value :=
  match fields with
  | [] => None
  | (k', v) :: rest => if String.eqb k k' then Some v else lookup k rest
  end.

(** [v.k], for the property names the handlers read (none of which
    exists on a boolean, number, string or array). *)
Definition get (v : value) (k : string) : result value :=
  match v with
  | JUndefined | JNull => Throw TypeError_nullish_read
  | JObj fields =>
      match lookup k fields with
      | Some x => Ok x
      | None => Ok JUndefined
      end
  | _ => Ok JUndefined
  end.

(** ToBoolean: what [!v], [v || w], [v && w] and [if (v)] test. *)
Definition to_boolean (v : value) : bool :=
  match v with
  | JUndefined | JNull => false
  | JBool b => b
  | JNum x => negb (PrimFloat.eqb x 0 || PrimFloat.is_nan x)
  | JStr s => negb (String.eqb s "")
  | JArr _ | JObj _ => true
  end.

Definition js_or (v w : value) : value := if to_boolean v then v else w.

(** [v === 'literal'] and [v === number]: no coercion. *)
Definition strict_eq_string (v : value) (s : string) : bool :=
  match v with
  | JStr t => String.eqb t s
  | _ => false
  end.

Definition strict_eq_number (v : value) (n : float) : bool :=
  match v with
  | JNum x => PrimFloat.eqb x n
  | _ => false
  end.

Section Coercions.
Context {rt : Runtime}.

(** ToString.  A JSON object inherits [Object.prototype.toString]
    unless it has a property of that name of its own, which, being
    data, is not callable: the conversion then throws.  An array
    joins its elements with commas, [null] and [undefined] elements
    giving the empty text. *)
Fixpoint to_string (v : value) : result string :=
  match v with
  | JUndefined => Ok "undefined"
  | JNull => Ok "null"
  | JBool true => Ok "true"
  | JBool false => Ok "false"
  | JNum x => Ok (NumberToString x)
  | JStr s => Ok s
  | JArr items =>
      (fix join (l : list value) : result string :=
         match l with
         | [] => Ok ""
         | x :: rest =>
             let first :=
               match x with
               | JUndefined | JNull => Ok ""
               | _ => to_string x
               end in
             match first with
             | Ok s =>
                 match rest with
                 | [] => Ok s
                 | _ =>
                     match join rest with
                     | Ok r => Ok (s ++ "," ++ r)
                     | Throw e => Throw e
                     | Hang => Hang
                     end
                 end
             | Throw e => Throw e
             | Hang => Hang
             end
         end) items
  | JObj fields =>
      match lookup "toString" fields with
      | Some _ => Throw TypeError_not_primitive
      | None => Ok "[object Object]"
      end
  end.

(** ToNumber; an object or array goes through its text. *)
Definition to_number (v : value) : result float :=
  match v with
  | JUndefined => Ok PrimFloat.nan
  | JNull => Ok PrimFloat.zero
  | JBool b => Ok (if b then PrimFloat.one else PrimFloat.zero)
  | JNum x => Ok x
  | JStr s => Ok (StringToNumber s)
  | JArr _ | JObj _ =>
      match to_string v with
      | Ok s => Ok (StringToNumber s)
      | Throw e => Throw e
      | Hang => Hang
      end
  end.

(** [v * w] *)
Definition js_mul (v w : value) : result value :=
  match to_number v with
  | Ok x =>
      match to_number w with
      | Ok y => Ok (JNum (PrimFloat.mul x y))
      | Throw e => Throw e
      | Hang => Hang
      end
  | Throw e => Throw e
  | Hang => Hang
  end.

(** [v + 'literal'] and ['literal' + v]: with a string operand, [+]
    concatenates the texts of both. *)
Definition js_add_string_r (v : value) (s : string) : result string :=
  match to_string v with
  | Ok t => Ok (t ++ s)
  | Throw e => Throw e
  | Hang => Hang
  end.

Definition js_add_string_l (s : string) (v : value) : result string :=
  match to_string v with
  | Ok t => Ok (s ++ t)
  | Throw e => Throw e
  | Hang => Hang
  end.

End Coercions.

(** Induction on values, through the lists of an array and of an
    object. *)
Section Induction.
Variable P : value -> Prop.
Hypothesis P_undefined : P JUndefined.
Hypothesis P_null : P JNull.
Hypothesis P_bool : forall b, P (JBool b).
Hypothesis P_num : forall x, P (JNum x).
Hypothesis P_str : forall s, P (JStr s).
Hypothesis P_arr : forall items, Forall P items -> P (JArr items).
Hypothesis P_obj :
  forall fields, Forall (fun kv => P (snd kv)) fields -> P (JObj fields).

Fixpoint value_induction (v : value) : P v :=
  match v with
  | JUndefined => P_undefined
  | JNull => P_null
  | JBool b => P_bool b
  | JNum x => P_num x
  | JStr s => P_str s
  | JArr items =>
      P_arr items
        ((fix all (l : list value) : Forall P l :=
            match l with
            | [] => Forall_nil P
            | x :: rest => Forall_cons x (value_induction x) (all rest)
            end) items)
  | JObj fields =>
      P_obj fields
        ((fix all (l : list (string * value))
            : Forall (fun kv => P (snd kv)) l :=
            match l with
            | [] => Forall_nil _
            | kv :: rest => Forall_cons kv (value_induction (snd kv)) (all rest)
            end) fields)
  end.
End Induction.

(** *** [String.prototype.trim] on UTF-8 text

    The white space and line terminators of ECMA-262, each as its UTF-8
    byte sequence. *)
Definition white_space : list (list Z) :=
  [ [0x09]; [0x0a]; [0x0b]; [0x0c]; [0x0d]; [0x20];
    [0xc2; 0xa0];
    [0xe1; 0x9a; 0x80];
    [0xe2; 0x80; 0x80]; [0xe2; 0x80; 0x81]; [0xe2; 0x80; 0x82];
    [0xe2; 0x80; 0x83]; [0xe2; 0x80; 0x84]; [0xe2; 0x80; 0x85];
    [0xe2; 0x80; 0x86]; [0xe2; 0x80; 0x87]; [0xe2; 0x80; 0x88];
    [0xe2; 0x80; 0x89]; [0xe2; 0x80; 0x8a];
    [0xe2; 0x80; 0xa8]; [0xe2; 0x80; 0xa9]; [0xe2; 0x80; 0xaf];
    [0xe2; 0x81; 0x9f];
    [0xe3; 0x80; 0x80];
    [0xef; 0xbb; 0xbf] ].

Definition code (c : ascii) : Z := Z.of_N (N_of_ascii c).

(** [strip_prefix p l]: [l] without its prefix [p], when it has it. *)
Fixpoint strip_prefix (p : list Z) (l : list ascii) : option (list ascii) :=
  match p with
  | [] => Some l
  | b :: p' =>
      match l with
      | [] => None
      | c :: l' => if Z.eqb (code c) b then strip_prefix p' l' else None
      end
  end.

(** One of the sequences [patterns] off the front, if there is one. *)
Definition strip_any (patterns : list (list Z)) (l : list ascii)
  : option (list ascii) :=
  fold_right
    (fun w acc => match strip_prefix w l with Some r => Some r | None => acc end)
    None patterns.

(** As many of them as there are; a sequence takes at least one byte, so
    the length of the text is fuel enough. *)
Fixpoint strip_all (patterns : list (list Z)) (fuel : nat) (l : list ascii)
  : list ascii :=
  match fuel with
  | O => l
  | S fuel' =>
      match strip_any patterns l with
      | Some r => strip_all patterns fuel' r
      | None => l
      end
  end.

Definition trim_start (l : list ascii) : list ascii :=
  strip_all white_space (List.length l) l.

(** The end is trimmed as the front of the reversed text, with the
    sequences read backwards. *)
Definition trim_end (l : list ascii) : list ascii :=
  rev (strip_all (map (@rev Z) white_space) (List.length l) (rev l)).

Definition trim (s : string) : string :=
  string_of_list_ascii (trim_end (trim_start (list_ascii_of_string s))).

End Js.

(* ================================================================== *)
(** ** The gateway, and the monad a handler runs in                     *)
(* ================================================================== *)

Module Gateway.
Import Js.

(** The four SDK operations the handlers call, with their arguments.
    [payments.capture] is called with two arguments in [server.js] and
    with a third one, [{currency}], in the controller. *)
Inductive call : Type :=
| OrdersCreate (options : value)
| PaymentsFetch (id : value)
| PaymentsCapture (id amount : value) (extra : option value)
| PaymentsAll (options : value).

(** What becomes of the promise a call returns.  [Pending] is a promise
    that is still unsettled when the handler stops waiting for it: never
    for a plain [await], at the firing of the timer when the promise is
    raced against one.  A call that throws before returning a promise
    is caught by the same [catch] as a rejection, and is a [Rejects]. *)
Inductive outcome : Type :=
| Resolves (v : value)
| Rejects (e : value)
| Pending.

(** The gateway as a request sees it: the outcome of a call, given the
    calls the request made before it. *)
Definition gateway : Type := list call -> call -> outcome.

(** A computation reads the gateway, appends to the log of calls made
    and ends as a [result]. *)
Definition M (A : Type) : Type := gateway -> list call -> list call * result A.

Definition ret {A} (a : A) : M A := fun _ log => (log, Ok a).

Definition bind {A B} (m : M A) (k : A -> M B) : M B :=
  fun gw log =>
    match m gw log with
    | (log', Ok a) => k a gw log'
    | (log', Throw e) => (log', Throw e)
    | (log', Hang) => (log', Hang)
    end.

Definition throw {A} (e : value) : M A := fun _ log => (log, Throw e).

Definition lift {A} (r : result A) : M A := fun _ log => (log, r).

(** [try { m } catch (e) { h e }] *)
Definition try_catch {A} (m : M A) (h : value -> M A) : M A :=
  fun gw log =>
    match m gw log with
    | (log', Throw e) => h e gw log'
    | other => other
    end.

(** [await razorpay.<call>] *)
Definition await (c : call) : M value :=
  fun gw log =>
    ((log ++ [c])%list,
     match gw log c with
     | Resolves v => Ok v
     | Rejects e => Throw e
     | Pending => Hang
     end).

(** [await Promise.race([razorpay.<call>, timer])], the timer rejecting
    with [new Error('Request timed out')] when it fires first. *)
Definition await_race_timer (c : call) : M value :=
  fun gw log =>
    ((log ++ [c])%list,
     match gw log c with
     | Resolves v => Ok v
     | Rejects e => Throw e
     | Pending => Throw (Error "Request timed out")
     end).

(** Running a handler for one request: the calls it made, and how it
    ended. *)
Definition run {A} (m : M A) (gw : gateway) : list call * result A := m gw [].

Definition calls {A} (m : M A) (gw : gateway) : list call := fst (run m gw).
Definition outcome_of {A} (m : M A) (gw : gateway) : result A := snd (run m gw).

Definition is_capture (c : call) : bool :=
  match c with
  | PaymentsCapture _ _ _ => true
  | _ => false
  end.

Definition captures (l : list call) : list call := filter is_capture l.

(** What Express sends back: [res.status(n).json(body)]; [res.json]
    alone leaves the status at 200. *)
Record response : Type := mkResponse { status : Z; body : value }.

Definition json (b : value) : response := mkResponse 200 b.
Definition status_json (n : Z) (b : value) : response := mkResponse n b.

End Gateway.

Declare Scope js_scope.
Delimit Scope js_scope with js.
Notation "x <- m ;; k" := (Gateway.bind m (fun x => k))
  (at level 61, m at next level, right associativity) : js_scope.
Notation "m ;;; k" := (Gateway.bind m (fun _ => k))
  (at level 61, right associativity) : js_scope.

(* ================================================================== *)
(** ** [server.js]                                                      *)
(* ================================================================== *)

Module Server.
Import Js Gateway.
Local Open Scope js_scope.

Section Handlers.
Context {rt : Runtime}.

(** The value of [process.env.RAZORPAY_KEY_SECRET]; the process exits
    at start-up when it is not set. *)
Variable RAZORPAY_KEY_SECRET : string.

(** [POST /create-order]; [now] is the reading of [Date.now()]. *)
Definition create_order (now : float) (req_body : value) : M response :=
  try_catch
    (amount <- lift (get req_body "amount") ;;
     currency0 <- lift (get req_body "currency") ;;
     let currency := match currency0 with JUndefined => JStr "INR" | c => c end in
     scaled <- lift (js_mul amount (JNum 100)) ;;
     receipt <- lift (js_add_string_l "order_" (JNum now)) ;;
     let options :=
       JObj [("amount", scaled); ("currency", currency); ("receipt", JStr receipt)] in
     order <- await (OrdersCreate options) ;;
     ret (json order))
    (fun error =>
       ret (status_json 500 (JObj [("error", JStr "Failed to create order")]))).

(** The [try] block around fetch and capture, entered once the
    signature has matched. *)
Definition fetch_and_capture
           (razorpay_order_id razorpay_payment_id amount : value) : M response :=
  try_catch
    (paymentDetails <- await (PaymentsFetch razorpay_payment_id) ;;
     status1 <- lift (get paymentDetails "status") ;;
     if strict_eq_string status1 "authorized" then
       payment <- await (PaymentsCapture razorpay_payment_id amount None) ;;
       ret (json (JObj [("verified", JBool true);
                        ("captured", JBool true);
                        ("payment_id", razorpay_payment_id);
                        ("order_id", razorpay_order_id);
                        ("payment_details", payment)]))
     else
       status2 <- lift (get paymentDetails "status") ;;
       if strict_eq_string status2 "captured" then
         ret (json (JObj [("verified", JBool true);
                          ("captured", JBool true);
                          ("payment_id", razorpay_payment_id);
                          ("order_id", razorpay_order_id);
                          ("payment_details", paymentDetails)]))
       else
         status3 <- lift (get paymentDetails "status") ;;
         text <- lift (js_add_string_l "Payment in unexpected state: " status3) ;;
         throw (Error text))
    (fun captureError =>
       message <- lift (get captureError "message") ;;
       ret (status_json 500
              (JObj [("verified", JBool true);
                     ("captured", JBool false);
                     ("error", js_or message (JStr "Payment verified but capture failed"))]))).

(** [POST /verify-payment] *)
Definition verify_payment (req_body : value) : M response :=
  try_catch
    (razorpay_order_id <- lift (get req_body "razorpay_order_id") ;;
     razorpay_payment_id <- lift (get req_body "razorpay_payment_id") ;;
     razorpay_signature <- lift (get req_body "razorpay_signature") ;;
     amount <- lift (get req_body "amount") ;;
     if negb (to_boolean razorpay_order_id) || negb (to_boolean razorpay_payment_id)
        || negb (to_boolean razorpay_signature) || negb (to_boolean amount)
     then
       ret (status_json 400 (JObj [("verified", JBool false);
                                   ("error", JStr "Missing required parameters")]))
     else
       prefix <- lift (js_add_string_r razorpay_order_id "|") ;;
       sign <- lift (js_add_string_l prefix razorpay_payment_id) ;;
       let expectedSign := Hmac.createHmac_sha256_hex RAZORPAY_KEY_SECRET sign in
       if strict_eq_string razorpay_signature expectedSign then
         fetch_and_capture razorpay_order_id razorpay_payment_id amount
       else
         ret (status_json 400 (JObj [("verified", JBool false);
                                     ("error", JStr "Invalid signature")])))
    (fun error =>
       ret (status_json 500 (JObj [("verified", JBool false);
                                   ("error", JStr "Internal server error")]))).

(** The [catch] of [GET /payments]; the logging call reads the
    properties of the error first. *)
Definition payments_failure (error : value) : M response :=
  lift (get error "message") ;;;
  statusCode <- lift (get error "statusCode") ;;
  if strict_eq_number statusCode 401 then
    ret (status_json 401 (JObj [("success", JBool false);
                                ("error", JStr "Invalid Razorpay credentials")]))
  else
    message <- lift (get error "message") ;;
    if strict_eq_string message "Request timed out" then
      ret (status_json 504 (JObj [("success", JBool false);
                                  ("error", JStr "Request to Razorpay timed out")]))
    else
      inner <- lift (get error "error") ;;
      description <- lift (get error "description") ;;
      ret (status_json 500
             (JObj [("success", JBool false);
                    ("error", js_or message (JStr "Failed to fetch payments"));
                    ("details", js_or (js_or inner description) JNull)])).

Definition thirty_days_ms : float := (30 * 24 * 60 * 60 * 1000)%float.

(** [GET /payments]; [now1] and [now2] are the two readings of
    [Date.now()].  The SDK handle is set before the server listens,
    so the test [!razorpay] fails. *)
Definition list_payments (now1 now2 : float) : M response :=
  try_catch
    (let options :=
       JObj [("from", JNum (MathFloor ((now1 - thirty_days_ms) / 1000)%float));
             ("to", JNum (MathFloor (now2 / 1000)%float));
             ("count", JNum 50);
             ("skip", JNum 0)] in
     payments <- await_race_timer (PaymentsAll options) ;;
     if negb (to_boolean payments) then
       throw (Error "No response from Razorpay")
     else
       count <- lift (get payments "count") ;;
       items <- lift (get payments "items") ;;
       ret (json (JObj [("success", JBool true);
                        ("data", JObj [("count", count);
                                       ("items", js_or items (JArr []))])])))
    payments_failure.

(** [GET /payments/:paymentId]; the route parameter is a piece of the
    path, hence a string. *)
Definition get_payment (paymentId : string) : M response :=
  try_catch
    (payment <- await (PaymentsFetch (JStr paymentId)) ;;
     ret (json (JObj [("success", JBool true); ("payment", payment)])))
    (fun error =>
       ret (status_json 500 (JObj [("success", JBool false);
                                   ("error", JStr "Failed to fetch payment details")]))).

End Handlers.
End Server.

(* ================================================================== *)
(** ** [controller /paymentController.js]                               *)
(* ================================================================== *)

Module Controller.
Import Js Gateway.
Local Open Scope js_scope.

Section Handlers.
Context {rt : Runtime}.

Variable RAZORPAY_KEY_SECRET : string.

(** [exports.createOrder] *)
Definition createOrder (now : float) (req_body : value) : M response :=
  try_catch
    (amount <- lift (get req_body "amount") ;;
     currency0 <- lift (get req_body "currency") ;;
     let currency := match currency0 with JUndefined => JStr "INR" | c => c end in
     scaled <- lift (js_mul amount (JNum 100)) ;;
     receipt <- lift (js_add_string_l "order_" (JNum now)) ;;
     let options :=
       JObj [("amount", scaled); ("currency", currency); ("receipt", JStr receipt)] in
     order <- await (OrdersCreate options) ;;
     ret (json order))
    (fun error =>
       ret (status_json 500 (JObj [("error", JStr "Failed to create order")]))).

(** The [catch] of [verifyAndCapturePayment]; the logging call reads
    the properties of the error first. *)
Definition processing_failure (error : value) : M response :=
  lift (get error "message") ;;;
  inner <- lift (get error "error") ;;
  inner_description <-
    (if to_boolean inner then lift (get inner "description") else ret inner) ;;
  if to_boolean inner_description then
    ret (status_json 400 (JObj [("success", JBool false);
                                ("error", inner_description)]))
  else
    code <- lift (get error "code") ;;
    description <- lift (get error "description") ;;
    if strict_eq_string code "BAD_REQUEST_ERROR" then
      ret (status_json 400
             (JObj [("success", JBool false);
                    ("error", js_or description (JStr "Invalid request parameters"))]))
    else
      message <- lift (get error "message") ;;
      ret (status_json 500
             (JObj [("success", JBool false);
                    ("error", js_or message (JStr "Payment processing failed"));
                    ("details", js_or description JNull)])).

(** Steps 2 to 4 of [verifyAndCapturePayment]: fetch the payment,
    check its status, capture it. *)
Definition steps_2_to_4 (razorpay_payment_id amount : value) : M response :=
  payment <- await (PaymentsFetch razorpay_payment_id) ;;
  status1 <- lift (get payment "status") ;;
  if strict_eq_string status1 "captured" then
    ret (json (JObj [("success", JBool true);
                     ("message", JStr "Payment already captured");
                     ("payment", payment)]))
  else
    status2 <- lift (get payment "status") ;;
    if negb (strict_eq_string status2 "authorized") then
      status3 <- lift (get payment "status") ;;
      text <- lift (js_add_string_l "Payment in invalid state: " status3) ;;
      ret (status_json 400 (JObj [("success", JBool false);
                                  ("error", JStr text)]))
    else
      currency <- lift (get payment "currency") ;;
      capturedPayment <-
        await (PaymentsCapture razorpay_payment_id amount
                               (Some (JObj [("currency", currency)]))) ;;
      ret (json (JObj [("success", JBool true);
                       ("message", JStr "Payment captured successfully");
                       ("payment", capturedPayment)])).

(** [exports.verifyAndCapturePayment]; step 1 is the signature check. *)
Definition verifyAndCapturePayment (req_body : value) : M response :=
  try_catch
    (razorpay_order_id <- lift (get req_body "razorpay_order_id") ;;
     razorpay_payment_id <- lift (get req_body "razorpay_payment_id") ;;
     razorpay_signature <- lift (get req_body "razorpay_signature") ;;
     amount <- lift (get req_body "amount") ;;
     if negb (to_boolean razorpay_order_id) || negb (to_boolean razorpay_payment_id)
        || negb (to_boolean razorpay_signature) || negb (to_boolean amount)
     then
       ret (status_json 400 (JObj [("success", JBool false);
                                   ("error", JStr "Missing required parameters")]))
     else
       prefix <- lift (js_add_string_r razorpay_order_id "|") ;;
       sign <- lift (js_add_string_l prefix razorpay_payment_id) ;;
       let expectedSign :=
         Hmac.createHmac_sha256_hex (trim RAZORPAY_KEY_SECRET) sign in
       if negb (strict_eq_string razorpay_signature expectedSign) then
         ret (status_json 400 (JObj [("success", JBool false);
                                     ("error", JStr "Invalid signature")]))
       else
         steps_2_to_4 razorpay_payment_id amount)
    processing_failure.

(** [exports.getAllPayments]: a plain [await], no timer. *)
Definition getAllPayments (now1 now2 : float) : M response :=
  try_catch
    (let options :=
       JObj [("from", JNum (MathFloor ((now1 - Server.thirty_days_ms) / 1000)%float));
             ("to", JNum (MathFloor (now2 / 1000)%float));
             ("count", JNum 50);
             ("skip", JNum 0)] in
     payments <- await (PaymentsAll options) ;;
     if negb (to_boolean payments) then
       throw (Error "No response from Razorpay")
     else
       count <- lift (get payments "count") ;;
       items <- lift (get payments "items") ;;
       ret (json (JObj [("success", JBool true);
                        ("data", JObj [("count", count);
                                       ("items", js_or items (JArr []))])])))
    (fun error =>
       message <- lift (get error "message") ;;
       ret (status_json 500
              (JObj [("success", JBool false);
                     ("error", js_or message (JStr "Failed to fetch payments"))]))).

(** [exports.getPayment] *)
Definition getPayment (paymentId : string) : M response :=
  try_catch
    (payment <- await (PaymentsFetch (JStr paymentId)) ;;
     ret (json (JObj [("success", JBool true); ("payment", payment)])))
    (fun error =>
       ret (status_json 500 (JObj [("success", JBool false);
                                   ("error", JStr "Failed to fetch payment details")]))).

End Handlers.
End Controller.

(* ================================================================== *)
(** ** Vocabulary of the statements                                     *)
(* ================================================================== *)

Arguments Hmac.createHmac_sha256_hex : simpl never.
Arguments Js.trim : simpl never.

Module Request.
Import Js Gateway.

(** A body made of the four fields, for the examples. *)
Definition verification_body (order_id payment_id signature amount : value) : value :=
  JObj [("razorpay_order_id", order_id);
        ("razorpay_payment_id", payment_id);
        ("razorpay_signature", signature);
        ("amount", amount)].

(** What destructuring the body yields for the four fields. *)
Definition reads (req_body order_id payment_id signature amount : value) : Prop :=
  get req_body "razorpay_order_id" = Ok order_id
  /\ get req_body "razorpay_payment_id" = Ok payment_id
  /\ get req_body "razorpay_signature" = Ok signature
  /\ get req_body "amount" = Ok amount.

Definition all_present (order_id payment_id signature amount : value) : bool :=
  to_boolean order_id && to_boolean payment_id
  && to_boolean signature && to_boolean amount.

(** A field that is not there ([undefined] after destructuring), or is
    [null], or is the empty string. *)
Definition missing_or_empty (v : value) : bool :=
  match v with
  | JUndefined | JNull => true
  | JStr s => String.eqb s ""
  | _ => false
  end.

Section Signing.
Context {rt : Runtime}.

(** [order_id + '|' + payment_id] *)
Definition signing_text (order_id payment_id : value) : result string :=
  match js_add_string_r order_id "|" with
  | Ok prefix => js_add_string_l prefix payment_id
  | Throw e => Throw e
  | Hang => Hang
  end.

(** The signature the gateway would have produced with [key]. *)
Definition expected_signature (key : string) (order_id payment_id : value)
  : option string :=
  match signing_text order_id payment_id with
  | Ok sign => Some (Hmac.createHmac_sha256_hex key sign)
  | _ => None
  end.

(** The request carries all four fields and its signature is, to the
    character, the expected one for [key]. *)
Definition correctly_signed (key : string) (req_body : value) : bool :=
  match get req_body "razorpay_order_id", get req_body "razorpay_payment_id",
        get req_body "razorpay_signature", get req_body "amount" with
  | Ok o, Ok p, Ok s, Ok a =>
      all_present o p s a
      && match expected_signature key o p with
         | Some expected => strict_eq_string s expected
         | None => false
         end
  | _, _, _, _ => false
  end.
End Signing.

Definition missing_parameters_server : response :=
  status_json 400 (JObj [("verified", JBool false);
                         ("error", JStr "Missing required parameters")]).
Definition missing_parameters_controller : response :=
  status_json 400 (JObj [("success", JBool false);
                         ("error", JStr "Missing required parameters")]).
Definition invalid_signature_server : response :=
  status_json 400 (JObj [("verified", JBool false);
                         ("error", JStr "Invalid signature")]).
Definition invalid_signature_controller : response :=
  status_json 400 (JObj [("success", JBool false);
                         ("error", JStr "Invalid signature")]).
Definition internal_error_server : response :=
  status_json 500 (JObj [("verified", JBool false);
                         ("error", JStr "Internal server error")]).

(** The two implementations of the endpoints. *)
Inductive implementation : Type := ServerJs | ControllerJs.

Section Dispatch.
Context {rt : Runtime}.

Definition verify (impl : implementation) (secret : string) (req_body : value)
  : M response :=
  match impl with
  | ServerJs => Server.verify_payment secret req_body
  | ControllerJs => Controller.verifyAndCapturePayment secret req_body
  end.

Definition create (impl : implementation) (now : float) (req_body : value)
  : M response :=
  match impl with
  | ServerJs => Server.create_order now req_body
  | ControllerJs => Controller.createOrder now req_body
  end.

(** What each handler runs once the signature has matched. *)
Definition after_verification (impl : implementation)
           (order_id payment_id amount : value) : M response :=
  match impl with
  | ServerJs =>
      try_catch (Server.fetch_and_capture order_id payment_id amount)
                (fun _ => ret internal_error_server)
  | ControllerJs =>
      try_catch (Controller.steps_2_to_4 payment_id amount)
                Controller.processing_failure
  end.

End Dispatch.

(** The key each implementation hands to [createHmac]: the environment
    variable as it is in [server.js], trimmed in the controller. *)
Definition hmac_key (impl : implementation) (secret : string) : string :=
  match impl with
  | ServerJs => secret
  | ControllerJs => trim secret
  end.

(** The third argument of the capture call. *)
Definition capture_extra (impl : implementation) (currency : value) : option value :=
  match impl with
  | ServerJs => None
  | ControllerJs => Some (JObj [("currency", currency)])
  end.

Definition missing_parameters (impl : implementation) : response :=
  match impl with
  | ServerJs => missing_parameters_server
  | ControllerJs => missing_parameters_controller
  end.

Definition invalid_signature (impl : implementation) : response :=
  match impl with
  | ServerJs => invalid_signature_server
  | ControllerJs => invalid_signature_controller
  end.

(** Reading a field of a response body. *)
Definition field (r : response) (k : string) : option value :=
  match body r with
  | JObj fields => lookup k fields
  | _ => None
  end.

(** The answer for a payment that is captured, by this request or
    before it: [details] is the payment the gateway returned. *)
Definition captured_response (impl : implementation) (already : bool)
           (order_id payment_id details : value) : response :=
  match impl with
  | ServerJs =>
      json (JObj [("verified", JBool true);
                  ("captured", JBool true);
                  ("payment_id", payment_id);
                  ("order_id", order_id);
                  ("payment_details", details)])
  | ControllerJs =>
      json (JObj [("success", JBool true);
                  ("message", JStr (if already then "Payment already captured"
                                    else "Payment captured successfully"));
                  ("payment", details)])
  end.

(** The answer for a payment found in a state that is neither
    [authorized] nor [captured]; [text] is the state as text. *)
Definition unexpected_state_response (impl : implementation) (text : string)
  : response :=
  match impl with
  | ServerJs =>
      status_json 500
        (JObj [("verified", JBool true);
               ("captured", JBool false);
               ("error", JStr ("Payment in unexpected state: " ++ text))])
  | ControllerJs =>
      status_json 400
        (JObj [("success", JBool false);
               ("error", JStr ("Payment in invalid state: " ++ text))])
  end.

(** The answer of [server.js] when fetch or capture fails with [error]. *)
Definition capture_failed_server (message : value) : response :=
  status_json 500
    (JObj [("verified", JBool true);
           ("captured", JBool false);
           ("error", js_or message (JStr "Payment verified but capture failed"))]).

(** The query of the listing endpoints. *)
Definition listing_options {rt : Runtime} (now1 now2 : float) : value :=
  JObj [("from", JNum (MathFloor ((now1 - Server.thirty_days_ms) / 1000)%float));
        ("to", JNum (MathFloor (now2 / 1000)%float));
        ("count", JNum 50);
        ("skip", JNum 0)].

Definition listing_response (count items : value) : response :=
  json (JObj [("success", JBool true);
              ("data", JObj [("count", count);
                             ("items", js_or items (JArr []))])]).

Definition timed_out_response : response :=
  status_json 504 (JObj [("success", JBool false);
                         ("error", JStr "Request to Razorpay timed out")]).

Definition bad_credentials_response : response :=
  status_json 401 (JObj [("success", JBool false);
                         ("error", JStr "Invalid Razorpay credentials")]).

(** The 500 answers of the two listing handlers, for an error whose
    properties are [message], [error] and [description]. *)
Definition listing_failed_server (message inner description : value) : response :=
  status_json 500
    (JObj [("success", JBool false);
           ("error", js_or message (JStr "Failed to fetch payments"));
           ("details", js_or (js_or inner description) JNull)]).

Definition listing_failed_controller (message : value) : response :=
  status_json 500
    (JObj [("success", JBool false);
           ("error", js_or message (JStr "Failed to fetch payments"))]).

Definition is_nullish (v : value) : bool :=
  match v with
  | JUndefined | JNull => true
  | _ => false
  end.

(** How a response reports a failure that follows a successful
    verification: [server.js] keeps [verified:true] and says
    [captured:false] under status 500; the controller has the single flag
    [success:false], under status 400 or 500. *)
Definition reports_failure_after_verification (impl : implementation) (r : response)
  : Prop :=
  match impl with
  | ServerJs =>
      status r = 500
      /\ field r "verified" = Some (JBool true)
      /\ field r "captured" = Some (JBool false)
  | ControllerJs =>
      (status r = 400 \/ status r = 500)
      /\ field r "success" = Some (JBool false)
      /\ field r "verified" = None
      /\ field r "captured" = None
  end.

End Request.

(* ================================================================== *)
(** ** [utils/logger.js], and the handlers with their logging           *)
(* ================================================================== *)

Module Logger.
Import Js.

(** What a call [logger.info(message, data)] hands to the logger; [data]
    is [null] when the call gives none, or gives [undefined]. *)
Record entry : Type := mkEntry { level : string; message : string; data : value }.

(** [JSON.stringify(data, null, 2)], taken as given. *)
Class Json : Type := { JSON_stringify : value -> string }.

Definition newline : string := String (ascii_of_nat 10) EmptyString.

(** [formatMessage(level, message, data = null)]; [timestamp] is the
    reading of [new Date().toISOString()]. *)
Definition formatMessage {J : Json} (timestamp level message : string) (data : value)
  : string :=
  let logMessage := "[" ++ timestamp ++ "] " ++ level ++ ": " ++ message in
  let logMessage :=
    if to_boolean data then logMessage ++ newline ++ JSON_stringify data
    else logMessage in
  logMessage ++ newline.

(** The text that [logger.info], [logger.error] and [logger.debug]
    append to the log file, and print, for an entry. *)
Definition written {J : Json} (timestamp : string) (e : entry) : string :=
  formatMessage timestamp (level e) (message e) (data e).

End Logger.

Module Logged.
Import Js Gateway Logger.

(** What a handler leaves behind: the calls it made and the entries it
    logged, in order.  Appending to the file and printing are taken to
    succeed. *)
Record trace : Type := mkTrace { made : list call; logged : list entry }.

Definition L (A : Type) : Type := gateway -> trace -> trace * result A.

Definition ret {A} (a : A) : L A := fun _ t => (t, Ok a).

Definition bind {A B} (m : L A) (k : A -> L B) : L B :=
  fun gw t =>
    match m gw t with
    | (t', Ok a) => k a gw t'
    | (t', Throw e) => (t', Throw e)
    | (t', Hang) => (t', Hang)
    end.

Definition throw {A} (e : value) : L A := fun _ t => (t, Throw e).

Definition lift {A} (r : result A) : L A := fun _ t => (t, r).

Definition try_catch {A} (m : L A) (h : value -> L A) : L A :=
  fun gw t =>
    match m gw t with
    | (t', Throw e) => h e gw t'
    | other => other
    end.

Definition await (c : call) : L value :=
  fun gw t =>
    (mkTrace (made t ++ [c])%list (logged t),
     match gw (made t) c with
     | Resolves v => Ok v
     | Rejects e => Throw e
     | Pending => Hang
     end).

Definition log (lvl msg : string) (d : value) : L unit :=
  fun _ t =>
    (mkTrace (made t)
             (logged t ++ [mkEntry lvl msg
                                   (match d with JUndefined => JNull | _ => d end)])%list,
     Ok tt).

Definition info : string -> value -> L unit := log "INFO".
Definition error : string -> value -> L unit := log "ERROR".
Definition debug : string -> value -> L unit := log "DEBUG".

Definition start : trace := mkTrace [] [].

(** The calls and the outcome of a logged handler, the entries left
    aside. *)
Definition observable {A} (m : L A) (gw : gateway) : list call * result A :=
  (made (fst (m gw start)), snd (m gw start)).

Definition entries {A} (m : L A) (gw : gateway) : list entry :=
  logged (fst (m gw start)).

End Logged.

Declare Scope logged_scope.
Delimit Scope logged_scope with logged.
Notation "x <- m ;; k" := (Logged.bind m (fun x => k))
  (at level 61, m at next level, right associativity) : logged_scope.
Notation "m ;;; k" := (Logged.bind m (fun _ => k))
  (at level 61, right associativity) : logged_scope.

Module LoggedServer.
Import Js Gateway Logger Logged.
Local Open Scope logged_scope.

Section Handlers.
Context {rt : Runtime}.
Variable RAZORPAY_KEY_SECRET : string.

(** [POST /verify-payment] of [server.js], every statement of it. *)
Definition verify_payment (req_body : value) : L response :=
  info "Received payment verification request:" req_body ;;;
  try_catch
    (razorpay_order_id <- lift (get req_body "razorpay_order_id") ;;
     razorpay_payment_id <- lift (get req_body "razorpay_payment_id") ;;
     razorpay_signature <- lift (get req_body "razorpay_signature") ;;
     amount <- lift (get req_body "amount") ;;
     if negb (to_boolean razorpay_order_id) || negb (to_boolean razorpay_payment_id)
        || negb (to_boolean razorpay_signature) || negb (to_boolean amount)
     then
       error "Missing required parameters" JNull ;;;
       ret (status_json 400 (JObj [("verified", JBool false);
                                   ("error", JStr "Missing required parameters")]))
     else
       info "Payment IDs:" (JObj [("order_id", razorpay_order_id);
                                  ("payment_id", razorpay_payment_id);
                                  ("amount", amount)]) ;;;
       prefix <- lift (js_add_string_r razorpay_order_id "|") ;;
       sign <- lift (js_add_string_l prefix razorpay_payment_id) ;;
       let expectedSign := Hmac.createHmac_sha256_hex RAZORPAY_KEY_SECRET sign in
       info "Signature verification:"
            (JObj [("received", razorpay_signature);
                   ("expected", JStr expectedSign);
                   ("matches", JBool (strict_eq_string razorpay_signature
                                                       expectedSign))]) ;;;
       if strict_eq_string razorpay_signature expectedSign then
         try_catch
           (info "Attempting to capture payment:" razorpay_payment_id ;;;
            paymentDetails <- await (PaymentsFetch razorpay_payment_id) ;;
            info "Payment details:" paymentDetails ;;;
            status1 <- lift (get paymentDetails "status") ;;
            if strict_eq_string status1 "authorized" then
              payment <- await (PaymentsCapture razorpay_payment_id amount None) ;;
              info "Payment captured successfully:" payment ;;;
              ret (json (JObj [("verified", JBool true);
                               ("captured", JBool true);
                               ("payment_id", razorpay_payment_id);
                               ("order_id", razorpay_order_id);
                               ("payment_details", payment)]))
            else
              status2 <- lift (get paymentDetails "status") ;;
              if strict_eq_string status2 "captured" then
                info "Payment was already captured" JNull ;;;
                ret (json (JObj [("verified", JBool true);
                                 ("captured", JBool true);
                                 ("payment_id", razorpay_payment_id);
                                 ("order_id", razorpay_order_id);
                                 ("payment_details", paymentDetails)]))
              else
                status3 <- lift (get paymentDetails "status") ;;
                text <- lift (js_add_string_l "Payment in unexpected state: " status3) ;;
                throw (Error text))
           (fun captureError =>
              error "Payment capture error:" captureError ;;;
              message <- lift (get captureError "message") ;;
              ret (status_json 500
                     (JObj [("verified", JBool true);
                            ("captured", JBool false);
                            ("error",
                             js_or message
                                   (JStr "Payment verified but capture failed"))])))
       else
         ret (status_json 400 (JObj [("verified", JBool false);
                                     ("error", JStr "Invalid signature")])))
    (fun err =>
       error "Payment verification error:" err ;;;
       ret (status_json 500 (JObj [("verified", JBool false);
                                   ("error", JStr "Internal server error")]))).

End Handlers.
End LoggedServer.

Module LoggedController.
Import Js Gateway Logger Logged.
Local Open Scope logged_scope.

Section Handlers.
Context {rt : Runtime}.
Variable RAZORPAY_KEY_SECRET : string.

(** The [catch] of [verifyAndCapturePayment], with its logging call: the
    five properties of the error are read for the entry. *)
Definition processing_failure (err : value) : L response :=
  message <- lift (get err "message") ;;
  code <- lift (get err "code") ;;
  description <- lift (get err "description") ;;
  metadata <- lift (get err "metadata") ;;
  stack <- lift (get err "stack") ;;
  error "Payment Processing Error"
        (JObj [("message", message); ("code", code); ("description", description);
               ("metadata", metadata); ("stack", stack)]) ;;;
  inner <- lift (get err "error") ;;
  inner_description <-
    (if to_boolean inner then lift (get inner "description") else ret inner) ;;
  if to_boolean inner_description then
    ret (status_json 400 (JObj [("success", JBool false);
                                ("error", inner_description)]))
  else
    if strict_eq_string code "BAD_REQUEST_ERROR" then
      ret (status_json 400
             (JObj [("success", JBool false);
                    ("error", js_or description (JStr "Invalid request parameters"))]))
    else
      ret (status_json 500
             (JObj [("success", JBool false);
                    ("error", js_or message (JStr "Payment processing failed"));
                    ("details", js_or description JNull)])).

(** [exports.verifyAndCapturePayment], every statement of it. *)
Definition verifyAndCapturePayment (req_body : value) : L response :=
  info "=== Payment Verification and Capture Started ===" JNull ;;;
  debug "Request body received" req_body ;;;
  try_catch
    (razorpay_order_id <- lift (get req_body "razorpay_order_id") ;;
     razorpay_payment_id <- lift (get req_body "razorpay_payment_id") ;;
     razorpay_signature <- lift (get req_body "razorpay_signature") ;;
     amount <- lift (get req_body "amount") ;;
     if negb (to_boolean razorpay_order_id) || negb (to_boolean razorpay_payment_id)
        || negb (to_boolean razorpay_signature) || negb (to_boolean amount)
     then
       error "Missing required parameters"
             (JObj [("hasOrderId", JBool (to_boolean razorpay_order_id));
                    ("hasPaymentId", JBool (to_boolean razorpay_payment_id));
                    ("hasSignature", JBool (to_boolean razorpay_signature));
                    ("hasAmount", JBool (to_boolean amount))]) ;;;
       ret (status_json 400 (JObj [("success", JBool false);
                                   ("error", JStr "Missing required parameters")]))
     else
       prefix <- lift (js_add_string_r razorpay_order_id "|") ;;
       sign <- lift (js_add_string_l prefix razorpay_payment_id) ;;
       let expectedSign :=
         Hmac.createHmac_sha256_hex (trim RAZORPAY_KEY_SECRET) sign in
       debug "Signature verification"
             (JObj [("received", razorpay_signature);
                    ("expected", JStr expectedSign);
                    ("matches", JBool (strict_eq_string razorpay_signature
                                                        expectedSign))]) ;;;
       if negb (strict_eq_string razorpay_signature expectedSign) then
         error "Signature verification failed" JNull ;;;
         ret (status_json 400 (JObj [("success", JBool false);
                                     ("error", JStr "Invalid signature")]))
       else
         info "Fetching payment details" (JObj [("paymentId", razorpay_payment_id)]) ;;;
         payment <- await (PaymentsFetch razorpay_payment_id) ;;
         debug "Payment details received" payment ;;;
         status1 <- lift (get payment "status") ;;
         if strict_eq_string status1 "captured" then
           info "Payment was already captured"
                (JObj [("paymentId", razorpay_payment_id)]) ;;;
           ret (json (JObj [("success", JBool true);
                            ("message", JStr "Payment already captured");
                            ("payment", payment)]))
         else
           status2 <- lift (get payment "status") ;;
           if negb (strict_eq_string status2 "authorized") then
             status3 <- lift (get payment "status") ;;
             error "Payment in invalid state" (JObj [("status", status3)]) ;;;
             status4 <- lift (get payment "status") ;;
             text <- lift (js_add_string_l "Payment in invalid state: " status4) ;;
             ret (status_json 400 (JObj [("success", JBool false);
                                         ("error", JStr text)]))
           else
             currency1 <- lift (get payment "currency") ;;
             info "Attempting to capture payment"
                  (JObj [("paymentId", razorpay_payment_id);
                         ("amount", amount);
                         ("currency", currency1)]) ;;;
             currency <- lift (get payment "currency") ;;
             capturedPayment <-
               await (PaymentsCapture razorpay_payment_id amount
                                      (Some (JObj [("currency", currency)]))) ;;
             info "Payment captured successfully" capturedPayment ;;;
             info "=== Payment Verification and Capture Completed ===" JNull ;;;
             ret (json (JObj [("success", JBool true);
                              ("message", JStr "Payment captured successfully");
                              ("payment", capturedPayment)])))
    processing_failure.

End Handlers.
End LoggedController.

(* ================================================================== *)
(** ** Vocabulary for the other endpoints                               *)
(* ================================================================== *)

Module Endpoints.
Import Js Gateway Request.

Section Dispatch.
Context {rt : Runtime}.

Definition list_all (impl : implementation) (now1 now2 : float) : M response :=
  match impl with
  | ServerJs => Server.list_payments now1 now2
  | ControllerJs => Controller.getAllPayments now1 now2
  end.

Definition get_one (impl : implementation) (paymentId : string) : M response :=
  match impl with
  | ServerJs => Server.get_payment paymentId
  | ControllerJs => Controller.getPayment paymentId
  end.

Definition logged_verify (impl : implementation) (secret : string)
           (req_body : value) : Logged.L response :=
  match impl with
  | ServerJs => LoggedServer.verify_payment secret req_body
  | ControllerJs => LoggedController.verifyAndCapturePayment secret req_body
  end.

(** The entry in which each handler logs the outcome of the signature
    check. *)
Definition signature_entry (impl : implementation)
           (received : value) (expected : string) : Logger.entry :=
  Logger.mkEntry
    (match impl with ServerJs => "INFO" | ControllerJs => "DEBUG" end)
    (match impl with
     | ServerJs => "Signature verification:"
     | ControllerJs => "Signature verification"
     end)
    (JObj [("received", received);
           ("expected", JStr expected);
           ("matches", JBool (strict_eq_string received expected))]).

(** The order a create-order handler places for the amount [n] (as a
    number), the [currency] read from the body and the clock at [now]. *)
Definition order_options (n : float) (currency : value) (now : float) : value :=
  JObj [("amount", JNum (n * 100)%float);
        ("currency", match currency with JUndefined => JStr "INR" | c => c end);
        ("receipt", JStr ("order_" ++ NumberToString now))].

End Dispatch.

Definition create_failed : response :=
  status_json 500 (JObj [("error", JStr "Failed to create order")]).

Definition payment_found (payment : value) : response :=
  json (JObj [("success", JBool true); ("payment", payment)]).

Definition payment_lookup_failed : response :=
  status_json 500 (JObj [("success", JBool false);
                         ("error", JStr "Failed to fetch payment details")]).

(** The characters [0-9a-f]. *)
Definition is_lower_hex (c : ascii) : bool :=
  let n := Z.of_N (N_of_ascii c) in
  ((48 <=? n)%Z && (n <=? 57)%Z) || ((97 <=? n)%Z && (n <=? 102)%Z).

Fixpoint all_chars (f : ascii -> bool) (s : string) : bool :=
  match s with
  | EmptyString => true
  | String c rest => f c && all_chars f rest
  end.

(** Whether a text contains the delimiter of the signed payload. *)
Fixpoint has_bar (s : string) : bool :=
  match s with
  | EmptyString => false
  | String c rest => Ascii.eqb c "|"%char || has_bar rest
  end.

End Endpoints.

(* ================================================================== *)
(** ** A runtime, requests and gateways for the examples                *)
(* ================================================================== *)

Module Sample.
Import Js Gateway Request.
Local Open Scope Z_scope.

(** The integer a double is, when it is one. *)
Definition integer_of (x : float) : option Z :=
  match Prim2SF x with
  | S754_zero _ => Some 0
  | S754_finite negative m e =>
      let magnitude :=
        if e <? 0
        then if Zpos m mod 2 ^ (- e) =? 0 then Some (Zpos m / 2 ^ (- e)) else None
        else Some (Zpos m * 2 ^ e) in
      option_map (fun z => if negative then - z else z) magnitude
  | _ => None
  end.

Definition float_of_Z (z : Z) : float :=
  if z <? 0 then PrimFloat.opp (PrimFloat.of_uint63 (Uint63.of_Z (- z)))
  else PrimFloat.of_uint63 (Uint63.of_Z z).

(** A runtime that is exact on the integers below 2^53 in magnitude,
    which is all the examples use: such a number prints as its decimal
    digits, a string of decimal digits denotes its integer, and the floor
    of a fraction is the integer below it. *)
Definition NumberToString_integers (x : float) : string :=
  match integer_of x with
  | Some z => if Z.abs z <? 2 ^ 53 then NilZero.string_of_int (Z.to_int z) else ""
  | None => if PrimFloat.is_nan x then "NaN" else ""
  end.

Definition StringToNumber_integers (s : string) : float :=
  match NilZero.uint_of_string s with
  | Some u => float_of_Z (Z.of_uint u)
  | None => PrimFloat.nan
  end.

Definition MathFloor_integers (x : float) : float :=
  match Prim2SF x with
  | S754_finite negative m e =>
      if e <? 0
      then float_of_Z ((if negative then Zneg m else Zpos m) / 2 ^ (- e))
      else x
  | _ => x
  end.

#[export] Instance runtime : Runtime :=
  {| NumberToString := NumberToString_integers;
     StringToNumber := StringToNumber_integers;
     MathFloor := MathFloor_integers |}.

(** The scenario of the specification. *)
Definition secret : string := "testsecret".
Definition order_id : value := JStr "order_ABC".
Definition payment_id : value := JStr "pay_XYZ".
Definition good_signature : value :=
  JStr "93f5a785992a41d68e10e2e08c1c7ca5692e58e24bdedbc5f0616c97fc4438aa".
Definition bad_signature : value :=
  JStr "0000000000000000000000000000000000000000000000000000000000000000".

Definition signed_request : value :=
  verification_body order_id payment_id good_signature (JNum 500).
Definition forged_request : value :=
  verification_body order_id payment_id bad_signature (JNum 500).

(** A payment as the gateway reports it. *)
Definition payment_in (state : string) : value :=
  JObj [("id", payment_id); ("status", JStr state);
        ("currency", JStr "INR"); ("amount", JNum 50000)].

(** A gateway whose payment is in [state] and which captures on request. *)
Definition gateway_with_payment_in (state : string) : gateway :=
  fun _ c =>
    match c with
    | PaymentsFetch _ => Resolves (payment_in state)
    | PaymentsCapture _ _ _ => Resolves (payment_in "captured")
    | OrdersCreate options => Resolves options
    | PaymentsAll _ => Resolves (JObj [("count", JNum 0); ("items", JArr [])])
    end.

(** A gateway that rejects every call with [error]. *)
Definition failing_gateway (error : value) : gateway := fun _ _ => Rejects error.

(** A gateway that fetches an [authorized] payment and fails to capture. *)
Definition gateway_failing_capture (error : value) : gateway :=
  fun _ c =>
    match c with
    | PaymentsCapture _ _ _ => Rejects error
    | _ => Resolves (payment_in "authorized")
    end.

(** A gateway that never answers. *)
Definition silent_gateway : gateway := fun _ _ => Pending.

Definition unauthorized_error : value :=
  JObj [("statusCode", JNum 401);
        ("error", JObj [("code", JStr "BAD_REQUEST_ERROR");
                        ("description", JStr "Authentication failed")])].

(** An error whose description happens to read like the answer to a
    forged request. *)
Definition misleading_error : value :=
  JObj [("error", JObj [("description", JStr "Invalid signature")])].

(** The secret of the scenario as a deployment may carry it, with a
    trailing blank. *)
Definition padded_secret : string := "testsecret ".

(** A reading of the clock. *)
Definition clock : float := 1700000000000%float.

(** A gateway that resolves every call with [null]. *)
Definition empty_handed_gateway : gateway := fun _ _ => Resolves JNull.

(** An error of the gateway that reads like the timer's. *)
Definition gateway_timeout_error : value :=
  JObj [("statusCode", JNum 504); ("message", JStr "Request timed out")].

Definition server_error : value :=
  JObj [("statusCode", JNum 502); ("message", JStr "Bad gateway")].

End Sample.

(* ================================================================== *)
(** ** How the two verification handlers unfold                         *)
(* ================================================================== *)

Module Unfolding.
Import Js Gateway Request.

Lemma strict_eq_string_true (v : value) (s : string) :
  strict_eq_string v s = true <-> v = JStr s.
Proof.
  destruct v; simpl; split; intros H; try discriminate.
  - apply String.eqb_eq in H. now subst.
  - inversion H; subst. apply String.eqb_refl.
Qed.

(** A body whose fields cannot be read is [undefined] or [null], and
    then no field can be read. *)
Lemma get_total_or_never (v : value) (k k' : string) (x : value) :
  get v k = Ok x -> exists y, get v k' = Ok y.
Proof.
  destruct v; simpl; intros H; try discriminate; eauto.
  destruct (lookup k' fields); eauto.
Qed.

Lemma get_not_hang (v : value) (k : string) : get v k <> Hang.
Proof. destruct v; simpl; try discriminate. destruct (lookup k fields); discriminate. Qed.

Section WithRuntime.
Context {rt : Runtime}.
Variable key : string.

(** The server's handler, once the four fields are read. *)
Lemma server_after_reads (req_body o p s a : value) (gw : gateway) :
  reads req_body o p s a ->
  run (Server.verify_payment key req_body) gw =
  if negb (all_present o p s a) then ([], Ok missing_parameters_server)
  else
    match signing_text o p with
    | Ok sign =>
        if strict_eq_string s (Hmac.createHmac_sha256_hex key sign)
        then run (try_catch (Server.fetch_and_capture o p a)
                            (fun _ => ret internal_error_server)) gw
        else ([], Ok invalid_signature_server)
    | Throw _ => ([], Ok internal_error_server)
    | Hang => ([], Hang)
    end.
Proof.
  intros (Ho & Hp & Hs & Ha).
  unfold run, Server.verify_payment, try_catch, bind, lift at 1 2 3 4.
  rewrite Ho, Hp, Hs, Ha. unfold all_present.
  destruct (to_boolean o), (to_boolean p), (to_boolean s), (to_boolean a);
    simpl; try reflexivity.
  unfold signing_text, lift.
  destruct (js_add_string_r o "|") as [prefix| |]; try reflexivity.
  destruct (js_add_string_l prefix p) as [sign| |]; try reflexivity.
  destruct (strict_eq_string s (Hmac.createHmac_sha256_hex key sign)); reflexivity.
Qed.
(** When the body cannot be destructured the outer [catch] answers. *)
Lemma server_unreadable (req_body e : value) (gw : gateway) :
  get req_body "razorpay_order_id" = Throw e ->
  run (Server.verify_payment key req_body) gw = ([], Ok internal_error_server).
Proof.
  intros H. unfold run, Server.verify_payment, try_catch, bind, lift at 1.
  rewrite H. reflexivity.
Qed.

(** The controller's handler, once the four fields are read. *)
Lemma controller_after_reads (req_body o p s a : value) (gw : gateway) :
  reads req_body o p s a ->
  run (Controller.verifyAndCapturePayment key req_body) gw =
  if negb (all_present o p s a) then ([], Ok missing_parameters_controller)
  else
    match signing_text o p with
    | Ok sign =>
        if strict_eq_string s (Hmac.createHmac_sha256_hex (trim key) sign)
        then run (try_catch (Controller.steps_2_to_4 p a)
                            Controller.processing_failure) gw
        else ([], Ok invalid_signature_controller)
    | Throw e => run (Controller.processing_failure e) gw
    | Hang => ([], Hang)
    end.
Proof.
  intros (Ho & Hp & Hs & Ha).
  unfold run, Controller.verifyAndCapturePayment, try_catch, bind, lift at 1 2 3 4.
  rewrite Ho, Hp, Hs, Ha. unfold all_present.
  destruct (to_boolean o), (to_boolean p), (to_boolean s), (to_boolean a);
    simpl; try reflexivity.
  unfold signing_text, lift.
  destruct (js_add_string_r o "|") as [prefix| |]; try reflexivity.
  destruct (js_add_string_l prefix p) as [sign| |]; try reflexivity.
  destruct (strict_eq_string s (Hmac.createHmac_sha256_hex (trim key) sign));
    reflexivity.
Qed.

Lemma controller_unreadable (req_body e : value) (gw : gateway) :
  get req_body "razorpay_order_id" = Throw e ->
  run (Controller.verifyAndCapturePayment key req_body) gw
  = run (Controller.processing_failure e) gw.
Proof.
  intros H. unfold run, Controller.verifyAndCapturePayment, try_catch, bind, lift at 1.
  rewrite H. reflexivity.
Qed.

(** The [catch] blocks talk to the client only. *)
Lemma processing_failure_no_call (e : value) (gw : gateway) (log : list call) :
  fst (Controller.processing_failure e gw log) = log.
Proof.
  unfold Controller.processing_failure, bind, lift, ret.
  repeat (simpl; try reflexivity;
          match goal with
          | |- context [match get ?x ?k with _ => _ end] => destruct (get x k)
          | |- context [if ?b then _ else _] => destruct b
          end).
Qed.

(** The calls of the server's fetch-and-capture block: one fetch, then at
    most one capture, of the amount it was given and only for a payment
    fetched as [authorized]. *)
Lemma server_block_calls (o p a : value) (h : value -> M response) (gw : gateway) :
  (forall e gw' log, fst (h e gw' log) = log) ->
  let l := calls (try_catch (Server.fetch_and_capture o p a) h) gw in
  l = [PaymentsFetch p]
  \/ (l = [PaymentsFetch p; PaymentsCapture p a None]
      /\ exists payment, gw [] (PaymentsFetch p) = Resolves payment
                         /\ get payment "status" = Ok (JStr "authorized")).
Proof.
  intros Hh. cbv zeta.
  assert (Hcalls : calls (try_catch (Server.fetch_and_capture o p a) h) gw
                   = fst (Server.fetch_and_capture o p a gw [])).
  { unfold calls, run, try_catch.
    destruct (Server.fetch_and_capture o p a gw []) as [log [resp|e|]]; simpl; auto. }
  rewrite Hcalls. clear Hcalls.
  destruct (Server.fetch_and_capture o p a gw []) as [log r] eqn:E.
  simpl.
  revert E. unfold Server.fetch_and_capture, try_catch, bind, await, lift, ret, throw.
  simpl.
  destruct (gw [] (PaymentsFetch p)) as [pd|e|] eqn:Hf.
  - destruct (get pd "status") as [st| |] eqn:Hst.
    + destruct (strict_eq_string st "authorized") eqn:Hauth.
      * apply strict_eq_string_true in Hauth. subst st.
        intros E. right. split; [|exists pd; auto].
        destruct (gw [PaymentsFetch p] (PaymentsCapture p a None));
          try (destruct (get e "message")); inversion E; reflexivity.
      * destruct (strict_eq_string st "captured").
        -- intros E; inversion E; auto.
        -- destruct (js_add_string_l "Payment in unexpected state: " st);
             simpl; intros E; left;
             repeat match type of E with
                    | context [get ?x ?k] => destruct (get x k)
                    end; inversion E; reflexivity.
    + intros E; left.
      repeat match type of E with
             | context [get ?x ?k] => destruct (get x k)
             end; inversion E; reflexivity.
    + intros E; inversion E; auto.
  - intros E; left. destruct (get e "message"); inversion E; reflexivity.
  - intros E; inversion E; auto.
Qed.

(** The same for steps 2 to 4 of the controller, whose capture call
    carries the currency of the fetched payment. *)
Lemma controller_block_calls (p a : value) (gw : gateway) :
  let l := calls (try_catch (Controller.steps_2_to_4 p a)
                            Controller.processing_failure) gw in
  l = [PaymentsFetch p]
  \/ exists payment currency,
       l = [PaymentsFetch p;
            PaymentsCapture p a (Some (JObj [("currency", currency)]))]
       /\ gw [] (PaymentsFetch p) = Resolves payment
       /\ get payment "status" = Ok (JStr "authorized")
       /\ get payment "currency" = Ok currency.
Proof.
  cbv zeta.
  assert (Hcalls : calls (try_catch (Controller.steps_2_to_4 p a)
                                    Controller.processing_failure) gw
                   = fst (Controller.steps_2_to_4 p a gw [])).
  { unfold calls, run, try_catch.
    destruct (Controller.steps_2_to_4 p a gw []) as [log [resp|e|]]; simpl; auto.
    apply processing_failure_no_call. }
  rewrite Hcalls. clear Hcalls.
  unfold Controller.steps_2_to_4, bind, await, lift, ret. simpl.
  destruct (gw [] (PaymentsFetch p)) as [pd|e|] eqn:Hf; simpl; auto.
  destruct (get pd "status") as [st| |] eqn:Hst; simpl; auto.
  destruct (strict_eq_string st "captured"); simpl; auto.
  destruct (strict_eq_string st "authorized") eqn:Hauth; simpl.
  - apply strict_eq_string_true in Hauth. subst st.
    destruct (get pd "currency") as [cur| |] eqn:Hcur; simpl.
    + right. exists pd, cur. repeat split; auto.
      destruct (gw [PaymentsFetch p]
                   (PaymentsCapture p a (Some (JObj [("currency", cur)]))));
        reflexivity.
    + destruct pd; simpl in Hst, Hcur; try discriminate.
      destruct (lookup "currency" fields); discriminate.
    + now apply get_not_hang in Hcur.
  - destruct (js_add_string_l "Payment in invalid state: " st); simpl; auto.
Qed.

(** Every run of a verification handler: no call at all, or a correctly
    signed request, one fetch, and at most one capture, of the amount of
    the request and of a payment fetched as [authorized]. *)
Lemma verify_calls_shape (impl : implementation) (req_body : value) (gw : gateway) :
  let l := calls (verify impl key req_body) gw in
  l = []
  \/ exists o p s a,
       reads req_body o p s a
       /\ correctly_signed (hmac_key impl key) req_body = true
       /\ to_boolean a = true
       /\ (l = [PaymentsFetch p]
           \/ exists payment currency,
                l = [PaymentsFetch p; PaymentsCapture p a (capture_extra impl currency)]
                /\ gw [] (PaymentsFetch p) = Resolves payment
                /\ get payment "status" = Ok (JStr "authorized")
                /\ (impl = ControllerJs -> get payment "currency" = Ok currency)).
Proof.
  cbv zeta.
  destruct (get req_body "razorpay_order_id") as [o|e|] eqn:Ho.
  2:{ left. unfold calls. destruct impl; simpl.
      - now rewrite (server_unreadable _ _ _ Ho).
      - rewrite (controller_unreadable _ _ _ Ho).
        apply processing_failure_no_call. }
  2:{ now apply get_not_hang in Ho. }
  destruct (get_total_or_never _ _ "razorpay_payment_id" _ Ho) as [p Hp].
  destruct (get_total_or_never _ _ "razorpay_signature" _ Ho) as [s Hs].
  destruct (get_total_or_never _ _ "amount" _ Ho) as [a Ha].
  assert (Hr : reads req_body o p s a) by (repeat split; assumption).
  assert (Hsigned : forall k,
             correctly_signed k req_body
             = all_present o p s a
               && match expected_signature k o p with
                  | Some expected => strict_eq_string s expected
                  | None => false
                  end).
  { intros k. unfold correctly_signed. now rewrite Ho, Hp, Hs, Ha. }
  unfold calls.
  destruct impl; simpl verify; simpl hmac_key.
  - rewrite (server_after_reads _ _ _ _ _ gw Hr).
    destruct (all_present o p s a) eqn:Hall; simpl; auto.
    destruct (signing_text o p) as [sign| |] eqn:Hsign; simpl; auto.
    destruct (strict_eq_string s (Hmac.createHmac_sha256_hex key sign)) eqn:Heq;
      simpl; auto.
    right. exists o, p, s, a. split; [exact Hr|]. split.
    { rewrite Hsigned. unfold expected_signature. rewrite Hsign. exact Heq. }
    split.
    { unfold all_present in Hall. now apply andb_true_iff in Hall. }
    destruct (server_block_calls o p a (fun _ => ret internal_error_server) gw)
      as [H|(H & payment & Hf & Hst)]; [reflexivity | |].
    + left. exact H.
    + right. exists payment, JUndefined. repeat split; auto. discriminate.
  - rewrite (controller_after_reads _ _ _ _ _ gw Hr).
    destruct (all_present o p s a) eqn:Hall; simpl; auto.
    destruct (signing_text o p) as [sign| |] eqn:Hsign; simpl; auto.
    2:{ left. apply processing_failure_no_call. }
    destruct (strict_eq_string s (Hmac.createHmac_sha256_hex (trim key) sign)) eqn:Heq;
      simpl; auto.
    right. exists o, p, s, a. split; [exact Hr|]. split.
    { rewrite Hsigned. unfold expected_signature. rewrite Hsign. exact Heq. }
    split.
    { unfold all_present in Hall. now apply andb_true_iff in Hall. }
    destruct (controller_block_calls p a gw)
      as [H|(payment & cur & H & Hf & Hst & Hcur)].
    + left. exact H.
    + right. exists payment, cur. repeat split; auto.
Qed.

End WithRuntime.
End Unfolding.

Example sha256_abc :
  Hmac.hex (Sha256.digest (Hmac.bytes_of_string "abc"))
  = "ba7816bf8f01cfea414140de5dae2223b00361a396177a9cb410ff61f20015ad".
Proof. vm_compute. reflexivity. Qed.

Example hmac_scenario :
  Hmac.createHmac_sha256_hex "testsecret" "order_ABC|pay_XYZ"
  = "93f5a785992a41d68e10e2e08c1c7ca5692e58e24bdedbc5f0616c97fc4438aa".
Proof. vm_compute. reflexivity. Qed.

Example hmac_long_key :
  Hmac.createHmac_sha256_hex
    "kkkkkkkkkkkkkkkkkkkkkkkkkkkkkkkkkkkkkkkkkkkkkkkkkkkkkkkkkkkkkkkkkkkkkk"
    "mmmmmmmmmmmmmmmmmmmmmmmmmmmmmmmmmmmmmmmmmmmmmmmmmmmmmmmmmmmmmmmmmmmmmmmmmmmmmmmmmmmmmmmmmmmmmmmmmmmmmmmmmmmmmmmmmmmmmmmmmmmmmmmmmm"
  = "1ac6b4fbc8b160b48837dcb6380947d9cccdcc8814d7c3d9561e33bd84cb7884".
Proof. vm_compute. reflexivity. Qed.

Example trim_examples :
  Js.trim "  testsecret " = "testsecret"
  /\ Js.trim "testsecret" = "testsecret"
  /\ Js.trim (String (ascii_of_nat 10) "a b") = "a b"
  /\ Js.trim (String (ascii_of_nat 194) (String (ascii_of_nat 160) "key")) = "key"
  /\ Js.trim (String (ascii_of_nat 195) (String (ascii_of_nat 160) "key"))
     = String (ascii_of_nat 195) (String (ascii_of_nat 160) "key")
  /\ Js.trim "   " = "".
Proof. vm_compute. repeat split. Qed.

(* ================================================================== *)
(** ** Facts about [trim] and about the digest                          *)
(* ================================================================== *)

Module TrimFacts.
Import Js.

Definition nonempty_patterns (patterns : list (list Z)) : Prop :=
  Forall (fun w => w <> []) patterns.

Lemma strip_prefix_length (w : list Z) :
  forall l r, strip_prefix w l = Some r ->
              List.length l = (List.length w + List.length r)%nat.
Proof.
  induction w as [|b w IH]; intros l r H; simpl in *.
  - now inversion H.
  - destruct l as [|c l]; [discriminate|].
    destruct (Z.eqb (code c) b); [|discriminate].
    simpl. now rewrite (IH _ _ H).
Qed.

Lemma strip_prefix_app (w : list Z) :
  forall l r z, strip_prefix w l = Some r ->
                strip_prefix w (l ++ z) = Some (r ++ z)%list.
Proof.
  induction w as [|b w IH]; intros l r z H; simpl in *.
  - now inversion H.
  - destruct l as [|c l]; [discriminate|]. simpl.
    destruct (Z.eqb (code c) b); [|discriminate]. now apply IH.
Qed.

Lemma strip_prefix_suffix (w : list Z) :
  forall l r, strip_prefix w l = Some r -> exists pre, l = (pre ++ r)%list.
Proof.
  induction w as [|b w IH]; intros l r H; simpl in *.
  - inversion H. now exists [].
  - destruct l as [|c l]; [discriminate|].
    destruct (Z.eqb (code c) b); [|discriminate].
    destruct (IH _ _ H) as [pre Hpre]. exists (c :: pre). simpl. now rewrite Hpre.
Qed.

Lemma strip_any_shorter (patterns : list (list Z)) (l r : list ascii) :
  nonempty_patterns patterns ->
  strip_any patterns l = Some r -> (List.length r < List.length l)%nat.
Proof.
  unfold strip_any. induction 1 as [|w ws Hw _ IH]; simpl; [discriminate|].
  destruct (strip_prefix w l) as [r'|] eqn:E.
  - intros H. inversion H; subst r'.
    apply strip_prefix_length in E.
    destruct w; [contradiction|]. simpl in E. lia.
  - exact IH.
Qed.

Lemma strip_any_suffix (patterns : list (list Z)) (l r : list ascii) :
  strip_any patterns l = Some r -> exists pre, l = (pre ++ r)%list.
Proof.
  unfold strip_any.
  induction patterns as [|w ws IH]; simpl; [discriminate|].
  destruct (strip_prefix w l) as [r'|] eqn:E.
  - intros H. inversion H; subst r'. now apply strip_prefix_suffix with w.
  - exact IH.
Qed.

(** A text that starts with none of the sequences has no prefix that
    does. *)
Lemma strip_any_prefix_none (patterns : list (list Z)) (l z : list ascii) :
  strip_any patterns (l ++ z) = None -> strip_any patterns l = None.
Proof.
  unfold strip_any.
  induction patterns as [|w ws IH]; simpl; [reflexivity|].
  destruct (strip_prefix w l) as [r|] eqn:E.
  - now rewrite (strip_prefix_app _ _ _ z E).
  - destruct (strip_prefix w (l ++ z)); [discriminate | exact IH].
Qed.

Lemma strip_all_done (patterns : list (list Z)) (fuel : nat) (l : list ascii) :
  strip_any patterns l = None -> strip_all patterns fuel l = l.
Proof. intros H. destruct fuel; simpl; [reflexivity | now rewrite H]. Qed.

(** With fuel enough nothing is left to strip. *)
Lemma strip_all_complete (patterns : list (list Z)) (fuel : nat) :
  nonempty_patterns patterns ->
  forall l, (List.length l <= fuel)%nat ->
            strip_any patterns (strip_all patterns fuel l) = None.
Proof.
  intros Hp.
  induction fuel as [|fuel IH]; intros l Hlen; simpl.
  - destruct l; [|simpl in Hlen; lia].
    destruct (strip_any patterns []) eqn:E; [|reflexivity].
    apply (strip_any_shorter _ _ _ Hp) in E. simpl in E. lia.
  - destruct (strip_any patterns l) as [r|] eqn:E; [|exact E].
    apply IH. apply (strip_any_shorter _ _ _ Hp) in E. lia.
Qed.

Lemma strip_all_suffix (patterns : list (list Z)) (fuel : nat) :
  forall l, exists pre, l = (pre ++ strip_all patterns fuel l)%list.
Proof.
  induction fuel as [|fuel IH]; intros l; simpl.
  - now exists [].
  - destruct (strip_any patterns l) as [r|] eqn:E; [|now exists []].
    destruct (strip_any_suffix _ _ _ E) as [pre1 H1].
    destruct (IH r) as [pre2 H2].
    exists (pre1 ++ pre2)%list. rewrite <- app_assoc, <- H2. exact H1.
Qed.

Lemma white_space_nonempty : nonempty_patterns white_space.
Proof. unfold nonempty_patterns, white_space. repeat constructor; discriminate. Qed.

Lemma white_space_rev_nonempty : nonempty_patterns (map (@rev Z) white_space).
Proof. unfold nonempty_patterns, white_space. simpl. repeat constructor; discriminate. Qed.

(** The trimmed text starts with no white space, and ends with none. *)
Lemma trim_start_clean (l : list ascii) : strip_any white_space (trim_start l) = None.
Proof. apply strip_all_complete; [apply white_space_nonempty | reflexivity]. Qed.

Lemma trim_end_clean (l : list ascii) :
  strip_any (map (@rev Z) white_space) (rev (trim_end l)) = None.
Proof.
  unfold trim_end. rewrite rev_involutive.
  apply strip_all_complete; [apply white_space_rev_nonempty|].
  now rewrite length_rev.
Qed.

Lemma trim_end_prefix (l : list ascii) : exists z, l = (trim_end l ++ z)%list.
Proof.
  unfold trim_end.
  destruct (strip_all_suffix (map (@rev Z) white_space) (List.length l) (rev l))
    as [pre H].
  exists (rev pre).
  rewrite <- rev_app_distr, <- H. now rewrite rev_involutive.
Qed.

Lemma trim_list_idempotent (l : list ascii) :
  trim_end (trim_start (trim_end (trim_start l))) = trim_end (trim_start l).
Proof.
  set (y := trim_start l).
  assert (Hstart : trim_start (trim_end y) = trim_end y).
  { unfold trim_start at 1. apply strip_all_done.
    destruct (trim_end_prefix y) as [z Hz].
    apply strip_any_prefix_none with z. rewrite <- Hz.
    apply trim_start_clean. }
  rewrite Hstart.
  unfold trim_end at 1. rewrite strip_all_done.
  - apply rev_involutive.
  - apply trim_end_clean.
Qed.

(** [trim] leaves a trimmed text as it is. *)
Lemma trim_idempotent (s : string) : trim (trim s) = trim s.
Proof.
  unfold trim. rewrite list_ascii_of_string_of_list_ascii.
  now rewrite trim_list_idempotent.
Qed.

End TrimFacts.

Module DigestFacts.

Lemma compress_length (h block : list Z) :
  List.length h = 8%nat -> List.length (Sha256.compress h block) = 8%nat.
Proof.
  intros H. unfold Sha256.compress.
  rewrite length_map, length_combine, H. reflexivity.
Qed.

Lemma fold_compress_length (bs : list (list Z)) :
  forall h, List.length h = 8%nat ->
            List.length (fold_left Sha256.compress bs h) = 8%nat.
Proof.
  induction bs as [|b bs IH]; intros h H; simpl.
  - exact H.
  - apply IH. now apply compress_length.
Qed.

Lemma flat_bytes_length (ws : list Z) :
  List.length (flat_map Sha256.bytes_of_word ws) = (4 * List.length ws)%nat.
Proof.
  induction ws as [|w ws IH]; simpl; [reflexivity|]. rewrite IH. lia.
Qed.

(** A digest is 32 bytes long, whatever the message. *)
Lemma digest_length (msg : list Z) : List.length (Sha256.digest msg) = 32%nat.
Proof.
  unfold Sha256.digest. rewrite flat_bytes_length, fold_compress_length; reflexivity.
Qed.

Lemma hex_length (bs : list Z) :
  String.length (Hmac.hex bs) = (2 * List.length bs)%nat.
Proof.
  induction bs as [|b bs IH]; simpl; [reflexivity|]. rewrite IH. lia.
Qed.

(** The expected signature is 64 characters long. *)
Lemma createHmac_sha256_hex_length (key text : string) :
  String.length (Hmac.createHmac_sha256_hex key text) = 64%nat.
Proof.
  unfold Hmac.createHmac_sha256_hex, Hmac.hmac_sha256.
  now rewrite hex_length, digest_length.
Qed.

Lemma createHmac_sha256_hex_not_empty (key text : string) :
  String.eqb (Hmac.createHmac_sha256_hex key text) "" = false.
Proof.
  pose proof (createHmac_sha256_hex_length key text) as H.
  destruct (Hmac.createHmac_sha256_hex key text); [discriminate H | reflexivity].
Qed.

End DigestFacts.

(* ================================================================== *)
(** ** Properties of the verification and capture flow                  *)
(* ================================================================== *)

Section Properties.
Import Js Gateway Request Unfolding.
Context {rt : Runtime}.

Lemma missing_or_empty_falsy (v : value) :
  missing_or_empty v = true -> to_boolean v = false.
Proof.
  destruct v; simpl; try discriminate; auto.
  intros H. now rewrite H.
Qed.

Lemma zero_falsy (v : value) :
  strict_eq_number v 0 = true -> to_boolean v = false.
Proof.
  destruct v; simpl; try discriminate.
  intros H. now rewrite H.
Qed.

Lemma truthy_not_zero (v : value) :
  to_boolean v = true -> strict_eq_number v 0 = false.
Proof.
  intros H. destruct (strict_eq_number v 0) eqn:E; auto.
  apply zero_falsy in E. congruence.
Qed.

(** A request with a falsy field is answered before any call. *)
Lemma falsy_field_rejected (impl : implementation) (secret : string)
      (req_body o p s a : value) (gw : gateway) :
  reads req_body o p s a ->
  all_present o p s a = false ->
  run (verify impl secret req_body) gw = ([], Ok (missing_parameters impl)).
Proof.
  intros Hr Hall. destruct impl; simpl.
  - rewrite (server_after_reads secret _ _ _ _ _ gw Hr). now rewrite Hall.
  - rewrite (controller_after_reads secret _ _ _ _ _ gw Hr). now rewrite Hall.
Qed.

(** C2.  A request that is not correctly signed makes no call to the
    gateway at all, hence no capture: a capture is only ever issued for a
    request whose signature has matched the expected digest. *)
Theorem C2_no_capture_without_verification
        (impl : implementation) (secret : string) (req_body : value) (gw : gateway) :
  correctly_signed (hmac_key impl secret) req_body = false ->
  calls (verify impl secret req_body) gw = []
  /\ captures (calls (verify impl secret req_body) gw) = [].
Proof.
  intros Hno.
  destruct (verify_calls_shape secret impl req_body gw)
    as [H|(o & p & s & a & _ & Hyes & _)].
  - rewrite H. split; reflexivity.
  - congruence.
Qed.

(** C6.  When one of the four fields is missing or empty the handler
    answers 400 "Missing required parameters" and calls neither fetch
    nor capture. *)
Theorem C6_missing_field_rejected
        (impl : implementation) (secret : string)
        (req_body o p s a : value) (gw : gateway) :
  reads req_body o p s a ->
  missing_or_empty o || missing_or_empty p
  || missing_or_empty s || missing_or_empty a = true ->
  run (verify impl secret req_body) gw = ([], Ok (missing_parameters impl))
  /\ status (missing_parameters impl) = 400
  /\ field (missing_parameters impl) "error" = Some (JStr "Missing required parameters").
Proof.
  intros Hr Hmiss. split; [|destruct impl; split; reflexivity].
  apply falsy_field_rejected with (1 := Hr).
  unfold all_present.
  repeat rewrite orb_true_iff in Hmiss.
  destruct Hmiss as [[[H|H]|H]|H]; apply missing_or_empty_falsy in H; rewrite H;
    repeat rewrite andb_false_r; reflexivity.
Qed.

Lemma nonempty_truthy (t : string) : t <> "" -> to_boolean (JStr t) = true.
Proof. intros H. simpl. destruct t; [contradiction | reflexivity]. Qed.

Lemma append_assoc (s t u : string) : (s ++ t) ++ u = s ++ (t ++ u).
Proof. induction s as [|c s IH]; simpl; [reflexivity | now rewrite IH]. Qed.

Lemma signing_text_strings (orderId paymentId : string) :
  signing_text (JStr orderId) (JStr paymentId) = Ok (orderId ++ "|" ++ paymentId).
Proof.
  unfold signing_text, js_add_string_r, js_add_string_l. simpl.
  now rewrite append_assoc.
Qed.

(** A correctly signed request reaches the gateway: its first call is
    the fetch of the payment. *)
Lemma signed_request_fetches
      (impl : implementation) (secret : string)
      (req_body o p s a : value) (sign : string) (gw : gateway) :
  reads req_body o p s a ->
  all_present o p s a = true ->
  signing_text o p = Ok sign ->
  s = JStr (Hmac.createHmac_sha256_hex (hmac_key impl secret) sign) ->
  hd_error (calls (verify impl secret req_body) gw) = Some (PaymentsFetch p).
Proof.
  intros Hr Hall Hsign Hs.
  apply strict_eq_string_true in Hs.
  unfold calls. destruct impl; simpl verify; simpl hmac_key in Hs.
  - rewrite (server_after_reads secret _ _ _ _ _ gw Hr), Hall, Hsign, Hs. simpl negb.
    cbv iota.
    destruct (server_block_calls o p a (fun _ => ret internal_error_server) gw)
      as [H|(H & _)]; [reflexivity | |]; unfold calls in H; now rewrite H.
  - rewrite (controller_after_reads secret _ _ _ _ _ gw Hr), Hall, Hsign, Hs.
    simpl negb. cbv iota.
    destruct (controller_block_calls p a gw) as [H|(? & ? & H & _)];
      unfold calls in H; now rewrite H.
Qed.

(** Any other signature is answered 400 before any call. *)
Lemma unsigned_request_rejected
      (impl : implementation) (secret : string)
      (req_body o p s a : value) (sign : string) (gw : gateway) :
  reads req_body o p s a ->
  to_boolean o = true -> to_boolean p = true -> to_boolean a = true ->
  signing_text o p = Ok sign ->
  s <> JStr (Hmac.createHmac_sha256_hex (hmac_key impl secret) sign) ->
  run (verify impl secret req_body) gw = ([], Ok (invalid_signature impl))
  \/ run (verify impl secret req_body) gw = ([], Ok (missing_parameters impl)).
Proof.
  intros Hr Ho Hp Ha Hsign Hne.
  destruct (to_boolean s) eqn:Hs.
  - left.
    assert (Hall : all_present o p s a = true).
    { unfold all_present. now rewrite Ho, Hp, Hs, Ha. }
    destruct impl; simpl verify; simpl hmac_key in Hne.
    + rewrite (server_after_reads secret _ _ _ _ _ gw Hr), Hall, Hsign. simpl negb.
      cbv iota.
      destruct (strict_eq_string s (Hmac.createHmac_sha256_hex secret sign)) eqn:E;
        [apply strict_eq_string_true in E; contradiction | reflexivity].
    + rewrite (controller_after_reads secret _ _ _ _ _ gw Hr), Hall, Hsign.
      simpl negb. cbv iota.
      destruct (strict_eq_string s (Hmac.createHmac_sha256_hex (trim secret) sign))
        eqn:E; [apply strict_eq_string_true in E; contradiction | reflexivity].
  - right. apply falsy_field_rejected with (1 := Hr).
    unfold all_present. rewrite Hs. now rewrite andb_false_r.
Qed.

(** What the handlers do with a signature, for textual identifiers: a
    fetch of the payment follows exactly when the signature is the
    expected lowercase-hex digest; any other signature is answered 400
    with no call. *)
Lemma verifier_accepts_exactly
      (impl : implementation) (secret orderId paymentId : string)
      (signature amount req_body : value) (gw : gateway) :
  reads req_body (JStr orderId) (JStr paymentId) signature amount ->
  orderId <> "" -> paymentId <> "" -> to_boolean amount = true ->
  let expected :=
    Hmac.createHmac_sha256_hex (hmac_key impl secret) (orderId ++ "|" ++ paymentId) in
  (signature = JStr expected
   <-> hd_error (calls (verify impl secret req_body) gw)
       = Some (PaymentsFetch (JStr paymentId)))
  /\ (signature <> JStr expected ->
      calls (verify impl secret req_body) gw = []
      /\ (outcome_of (verify impl secret req_body) gw = Ok (invalid_signature impl)
          \/ outcome_of (verify impl secret req_body) gw = Ok (missing_parameters impl))).
Proof.
  intros Hr Ho Hp Ha expected.
  pose proof (signing_text_strings orderId paymentId) as Hsign.
  apply nonempty_truthy in Ho, Hp.
  assert (Hwrong : signature <> JStr expected ->
            calls (verify impl secret req_body) gw = []
            /\ (outcome_of (verify impl secret req_body) gw = Ok (invalid_signature impl)
                \/ outcome_of (verify impl secret req_body) gw
                   = Ok (missing_parameters impl))).
  { intros Hne. unfold calls, outcome_of.
    destruct (unsigned_request_rejected impl secret _ _ _ _ _ _ gw Hr Ho Hp Ha Hsign Hne)
      as [H|H]; rewrite H; simpl; auto. }
  split; [split|exact Hwrong].
  - intros Heq.
    apply (signed_request_fetches impl secret _ _ _ _ _ _ gw Hr) with (2 := Hsign);
      [|exact Heq].
    unfold all_present. rewrite Ho, Hp, Ha, Heq. simpl.
    unfold expected. now rewrite DigestFacts.createHmac_sha256_hex_not_empty.
  - intros Hhd.
    destruct (strict_eq_string signature expected) eqn:E.
    + now apply strict_eq_string_true in E.
    + assert (Hne : signature <> JStr expected).
      { intros H. apply strict_eq_string_true in H. congruence. }
      destruct (Hwrong Hne) as [H _]. rewrite H in Hhd. discriminate.
Qed.

Lemma scenario_key (impl : implementation) : hmac_key impl "testsecret" = "testsecret".
Proof. destruct impl; [reflexivity | vm_compute; reflexivity]. Qed.

(** C1.  In both implementations the expected signature is the
    lowercase-hex HMAC-SHA256 of [orderId + "|" + paymentId] under the
    key handed to [createHmac], and the submitted signature is accepted
    (the handler goes on to fetch the payment) if and only if it is that
    very string; any other is answered 400 and nothing is called.  For
    order_ABC, pay_XYZ and the secret testsecret the one accepted string
    is 93f5a785...4438aa. *)
Theorem C1_signature_verifier (impl : implementation) :
  (forall (secret orderId paymentId : string) (signature amount req_body : value)
          (gw : gateway),
      reads req_body (JStr orderId) (JStr paymentId) signature amount ->
      orderId <> "" -> paymentId <> "" -> to_boolean amount = true ->
      let expected :=
        Hmac.createHmac_sha256_hex (hmac_key impl secret)
                                   (orderId ++ "|" ++ paymentId) in
      (signature = JStr expected
       <-> hd_error (calls (verify impl secret req_body) gw)
           = Some (PaymentsFetch (JStr paymentId)))
      /\ (signature <> JStr expected ->
          calls (verify impl secret req_body) gw = []
          /\ (outcome_of (verify impl secret req_body) gw = Ok (invalid_signature impl)
              \/ outcome_of (verify impl secret req_body) gw
                 = Ok (missing_parameters impl))))
  /\ (forall (signature amount : value) (gw : gateway),
         to_boolean amount = true ->
         let req_body :=
           verification_body (JStr "order_ABC") (JStr "pay_XYZ") signature amount in
         let digest :=
           "93f5a785992a41d68e10e2e08c1c7ca5692e58e24bdedbc5f0616c97fc4438aa" in
         (signature = JStr digest
          <-> hd_error (calls (verify impl "testsecret" req_body) gw)
              = Some (PaymentsFetch (JStr "pay_XYZ")))
         /\ (signature <> JStr digest ->
             calls (verify impl "testsecret" req_body) gw = []
             /\ (outcome_of (verify impl "testsecret" req_body) gw
                 = Ok (invalid_signature impl)
                 \/ outcome_of (verify impl "testsecret" req_body) gw
                    = Ok (missing_parameters impl)))).
Proof.
  split.
  - intros. now apply verifier_accepts_exactly with (amount := amount).
  - intros signature amount gw Ha req_body digest.
    assert (Hr : reads req_body (JStr "order_ABC") (JStr "pay_XYZ") signature amount)
      by (repeat split; reflexivity).
    pose proof (verifier_accepts_exactly impl "testsecret" "order_ABC" "pay_XYZ"
                  signature amount req_body gw Hr) as H.
    cbv zeta in H. rewrite scenario_key in H. simpl append in H.
    rewrite hmac_scenario in H.
    apply H; [discriminate | discriminate | exact Ha].
Qed.

(** The order a create-order request places with the gateway. *)
Lemma create_calls (impl : implementation) (now : float)
      (req_body amount : value) (n : float) (gw : gateway) :
  get req_body "amount" = Ok amount ->
  to_number amount = Ok n ->
  exists currency,
    calls (create impl now req_body) gw
    = [OrdersCreate (JObj [("amount", JNum (n * 100)%float);
                           ("currency", currency);
                           ("receipt", JStr ("order_" ++ NumberToString now))])].
Proof.
  intros Ha Hn.
  destruct (get_total_or_never _ _ "currency" _ Ha) as [c Hc].
  exists (match c with JUndefined => JStr "INR" | _ => c end).
  unfold calls, run.
  destruct impl; simpl create;
    unfold Server.create_order, Controller.createOrder,
      try_catch, bind, lift, await, ret, js_mul;
    rewrite Ha, Hc, Hn; simpl;
    destruct (gw [] _); reflexivity.
Qed.

(** A correctly signed request runs the block that follows the check. *)
Lemma signed_request_run
      (impl : implementation) (secret : string)
      (req_body o p s a : value) (gw : gateway) :
  reads req_body o p s a ->
  correctly_signed (hmac_key impl secret) req_body = true ->
  run (verify impl secret req_body) gw = run (after_verification impl o p a) gw.
Proof.
  intros Hr Hsigned.
  assert (H := Hr). destruct H as (Ho & Hp & Hs & Ha).
  unfold correctly_signed, expected_signature in Hsigned.
  rewrite Ho, Hp, Hs, Ha in Hsigned.
  apply andb_true_iff in Hsigned. destruct Hsigned as [Hall Heq].
  destruct (signing_text o p) as [sign| |] eqn:Hsign; try discriminate.
  destruct impl; simpl verify; simpl hmac_key in Heq.
  - rewrite (server_after_reads secret _ _ _ _ _ gw Hr), Hall, Hsign, Heq. reflexivity.
  - rewrite (controller_after_reads secret _ _ _ _ _ gw Hr), Hall, Hsign, Heq.
    reflexivity.
Qed.

(** A correctly signed request whose payment the gateway reports as
    [authorized] is followed by the capture of that payment, for the
    amount of the request as it was sent, whatever the gateway then does
    with the capture. *)
Lemma authorized_capture_calls
      (impl : implementation) (secret : string)
      (req_body o p s a payment : value) (gw : gateway) :
  reads req_body o p s a ->
  correctly_signed (hmac_key impl secret) req_body = true ->
  gw [] (PaymentsFetch p) = Resolves payment ->
  get payment "status" = Ok (JStr "authorized") ->
  exists currency,
    get payment "currency" = Ok currency
    /\ calls (verify impl secret req_body) gw
       = [PaymentsFetch p; PaymentsCapture p a (capture_extra impl currency)].
Proof.
  intros Hr Hsigned Hf Hst.
  destruct (get_total_or_never _ _ "currency" _ Hst) as [currency Hcur].
  exists currency. split; [exact Hcur|].
  unfold calls. rewrite (signed_request_run impl secret _ _ _ _ _ gw Hr Hsigned).
  destruct impl; simpl after_verification; simpl capture_extra;
    unfold Server.fetch_and_capture, Controller.steps_2_to_4,
      run, try_catch, bind, await, lift, ret;
    simpl; rewrite Hf, Hst; simpl; rewrite ?Hcur.
  - destruct (gw [PaymentsFetch p] (PaymentsCapture p a None)) as [c|e|];
      try reflexivity.
    destruct (get e "message"); reflexivity.
  - destruct (gw [PaymentsFetch p]
                 (PaymentsCapture p a (Some (JObj [("currency", currency)]))))
      as [c|e|]; try reflexivity.
    apply processing_failure_no_call.
Qed.

(** A correctly signed request carries a truthy amount. *)
Lemma signed_amount_truthy (key : string) (req_body o p s a : value) :
  reads req_body o p s a ->
  correctly_signed key req_body = true ->
  to_boolean a = true.
Proof.
  intros (Ho & Hp & Hs & Ha) Hsigned. unfold correctly_signed in Hsigned.
  rewrite Ho, Hp, Hs, Ha in Hsigned.
  apply andb_true_iff in Hsigned. destruct Hsigned as [Hall _].
  unfold all_present in Hall. now apply andb_true_iff in Hall.
Qed.

(** C9 (amended).  A request whose amount is the number 0, or one of
    whose string fields is the empty string, gets the very answer of a
    request in which a field is absent, 400 "Missing required
    parameters", and no capture call ever carries the number 0.  The
    test is one of truthiness, though, not of value: whatever truthy
    amount a correctly signed request carries, the string "0" among
    them, is handed to the capture of an authorized payment as it was
    sent. *)
Theorem C9_zero_amount_treated_as_missing
        (impl : implementation) (secret : string)
        (req_body o p s a : value) (gw : gateway) :
  reads req_body o p s a ->
  strict_eq_number a 0 = true \/ o = JStr "" \/ p = JStr "" \/ s = JStr "" ->
  run (verify impl secret req_body) gw = ([], Ok (missing_parameters impl))
  /\ (forall req_body' o' p' s' a',
        reads req_body' o' p' s' a' ->
        o' = JUndefined \/ p' = JUndefined \/ s' = JUndefined \/ a' = JUndefined ->
        run (verify impl secret req_body') gw = run (verify impl secret req_body) gw)
  /\ (forall req_body' gw' id amount extra,
        In (PaymentsCapture id amount extra) (calls (verify impl secret req_body') gw') ->
        get req_body' "amount" = Ok amount
        /\ to_boolean amount = true
        /\ strict_eq_number amount 0 = false)
  /\ (forall (t : string), t <> "" ->
        to_boolean (JStr t) = true /\ strict_eq_number (JStr t) 0 = false)
  /\ (forall req_body' o' p' s' a' payment gw',
        reads req_body' o' p' s' a' ->
        correctly_signed (hmac_key impl secret) req_body' = true ->
        gw' [] (PaymentsFetch p') = Resolves payment ->
        get payment "status" = Ok (JStr "authorized") ->
        to_boolean a' = true
        /\ exists currency,
             get payment "currency" = Ok currency
             /\ calls (verify impl secret req_body') gw'
                = [PaymentsFetch p';
                   PaymentsCapture p' a' (capture_extra impl currency)]).
Proof.
  intros Hr Hzero.
  assert (Hfirst : run (verify impl secret req_body) gw
                   = ([], Ok (missing_parameters impl))).
  { apply falsy_field_rejected with (1 := Hr). unfold all_present.
    destruct Hzero as [H|[H|[H|H]]].
    - apply zero_falsy in H. rewrite H. apply andb_false_r.
    - subst o. reflexivity.
    - subst p. simpl. now rewrite andb_false_r.
    - subst s. simpl. now rewrite andb_false_r. }
  split; [exact Hfirst|]. split; [|split; [|split]].
  - intros req_body' o' p' s' a' Hr' Habsent. rewrite Hfirst.
    apply falsy_field_rejected with (1 := Hr'). unfold all_present.
    destruct Habsent as [H|[H|[H|H]]]; subst; simpl;
      repeat rewrite andb_false_r; reflexivity.
  - intros req_body' gw' id amount extra Hin.
    destruct (verify_calls_shape secret impl req_body' gw')
      as [H|(o' & p' & s' & a' & (_ & _ & _ & Ha') & _ & Htruthy & Hl)].
    + rewrite H in Hin. contradiction.
    + assert (amount = a').
      { destruct Hl as [H|(payment & currency & H & _)]; rewrite H in Hin;
          simpl in Hin.
        - destruct Hin as [Hin|[]]. discriminate.
        - destruct Hin as [Hin|[Hin|[]]]; [discriminate|]. now inversion Hin. }
      subst a'. auto using truthy_not_zero.
  - intros t Hne. split; [now apply nonempty_truthy | reflexivity].
  - intros req_body' o' p' s' a' payment gw' Hr' Hsigned Hf Hst.
    split; [exact (signed_amount_truthy _ _ _ _ _ _ Hr' Hsigned)|].
    exact (authorized_capture_calls impl secret _ _ _ _ _ _ gw' Hr' Hsigned Hf Hst).
Qed.

(** C10.  A create-order request places an order for the caller's amount
    multiplied by 100, while a correctly signed verify-payment request
    for an authorized payment captures the caller's amount as it was
    sent, and no capture call carries anything else: the same number
    means major units on one endpoint and minor units on the other. *)
Theorem C10_amount_units
        (impl : implementation) (secret : string) (now : float)
        (create_body amount : value) (n : float)
        (verify_body o p s a payment : value)
        (gw_create gw_verify : gateway) :
  get create_body "amount" = Ok amount ->
  to_number amount = Ok n ->
  reads verify_body o p s a ->
  correctly_signed (hmac_key impl secret) verify_body = true ->
  gw_verify [] (PaymentsFetch p) = Resolves payment ->
  get payment "status" = Ok (JStr "authorized") ->
  (exists currency,
      calls (create impl now create_body) gw_create
      = [OrdersCreate (JObj [("amount", JNum (n * 100)%float);
                             ("currency", currency);
                             ("receipt", JStr ("order_" ++ NumberToString now))])])
  /\ (exists currency,
         get payment "currency" = Ok currency
         /\ calls (verify impl secret verify_body) gw_verify
            = [PaymentsFetch p; PaymentsCapture p a (capture_extra impl currency)])
  /\ (forall any_body gw id captured extra,
         In (PaymentsCapture id captured extra)
            (calls (verify impl secret any_body) gw) ->
         get any_body "amount" = Ok captured).
Proof.
  intros Ha Hn Hr Hsigned Hf Hst. split; [|split].
  - now apply create_calls with (amount := amount).
  - exact (authorized_capture_calls impl secret _ _ _ _ _ _ gw_verify Hr Hsigned Hf Hst).
  - intros any_body gw id captured extra Hin.
    destruct (verify_calls_shape secret impl any_body gw)
      as [H|(o' & p' & s' & a' & (_ & _ & _ & Ha') & _ & _ & Hl)].
    + rewrite H in Hin. contradiction.
    + destruct Hl as [H|(payment' & currency & H & _)]; rewrite H in Hin;
        simpl in Hin.
      * destruct Hin as [Hin|[]]. discriminate.
      * destruct Hin as [Hin|[Hin|[]]]; [discriminate|]. congruence.
Qed.

(** C3 (amended).  For a correctly signed request whose payment the
    gateway reports as [captured], the handler makes the fetch and no
    other call, and answers 200 with the payment it fetched: under
    [verified:true, captured:true, payment_details] in [server.js], under
    [success:true, message, payment] in the controller. *)
Theorem C3_already_captured
        (impl : implementation) (secret : string)
        (req_body o p s a payment : value) (gw : gateway) :
  reads req_body o p s a ->
  correctly_signed (hmac_key impl secret) req_body = true ->
  gw [] (PaymentsFetch p) = Resolves payment ->
  get payment "status" = Ok (JStr "captured") ->
  run (verify impl secret req_body) gw
  = ([PaymentsFetch p], Ok (captured_response impl true o p payment))
  /\ captures (calls (verify impl secret req_body) gw) = []
  /\ status (captured_response impl true o p payment) = 200.
Proof.
  intros Hr Hsigned Hfetch Hstatus.
  assert (Hrun : run (verify impl secret req_body) gw
                 = ([PaymentsFetch p], Ok (captured_response impl true o p payment))).
  { rewrite (signed_request_run impl secret _ _ _ _ _ gw Hr Hsigned).
    destruct impl; simpl after_verification;
      unfold Server.fetch_and_capture, Controller.steps_2_to_4,
        run, try_catch, bind, await, lift, ret;
      simpl; rewrite Hfetch, Hstatus; reflexivity. }
  split; [exact Hrun|]. split.
  - unfold calls. now rewrite Hrun.
  - destruct impl; reflexivity.
Qed.

(** For a correctly signed request whose payment is in a state other
    than [authorized] and [captured], each handler makes the fetch and no
    other call, and ends with the answer it has for that case, which
    names the state. *)
Lemma unexpected_state_run
        (impl : implementation) (secret : string)
        (req_body o p s a payment state : value) (text : string) (gw : gateway) :
  reads req_body o p s a ->
  correctly_signed (hmac_key impl secret) req_body = true ->
  gw [] (PaymentsFetch p) = Resolves payment ->
  get payment "status" = Ok state ->
  strict_eq_string state "authorized" = false ->
  strict_eq_string state "captured" = false ->
  to_string state = Ok text ->
  run (verify impl secret req_body) gw
  = ([PaymentsFetch p], Ok (unexpected_state_response impl text))
  /\ captures (calls (verify impl secret req_body) gw) = [].
Proof.
  intros Hr Hsigned Hfetch Hstatus Hauth Hcapt Htext.
  assert (Hrun : run (verify impl secret req_body) gw
                 = ([PaymentsFetch p], Ok (unexpected_state_response impl text))).
  { rewrite (signed_request_run impl secret _ _ _ _ _ gw Hr Hsigned).
    destruct impl; simpl after_verification;
      unfold Server.fetch_and_capture, Controller.steps_2_to_4,
        run, try_catch, bind, await, lift, ret, throw, js_add_string_l;
      simpl; rewrite Hfetch, Hstatus; simpl; rewrite Hauth, Hcapt; simpl;
      rewrite Htext; reflexivity. }
  split; [exact Hrun|].
  unfold calls. now rewrite Hrun.
Qed.

Lemma get_of_value (e : value) (k : string) :
  is_nullish e = false -> exists x, get e k = Ok x.
Proof.
  destruct e; simpl; intros H; try discriminate; eauto.
  destruct (lookup k fields); eauto.
Qed.

Lemma truthy_not_nullish (v : value) : to_boolean v = true -> is_nullish v = false.
Proof. destruct v; simpl; auto; discriminate. Qed.

(** The controller's [catch], for an error that is a value with
    properties, answers [success:false] under 400 or 500. *)
Lemma processing_failure_answers (e : value) (gw : gateway) (log : list call) :
  is_nullish e = false ->
  exists r, Controller.processing_failure e gw log = (log, Ok r)
            /\ reports_failure_after_verification ControllerJs r.
Proof.
  intros He.
  destruct (get_of_value e "message" He) as [m Hm].
  destruct (get_of_value e "error" He) as [inner Hinner].
  destruct (get_of_value e "code" He) as [c Hc].
  destruct (get_of_value e "description" He) as [d Hd].
  assert (Hflags : forall n x,
             n = 400 \/ n = 500 ->
             reports_failure_after_verification ControllerJs
               (status_json n (JObj (("success", JBool false) :: ("error", x) :: nil)))
             /\ forall y,
                 reports_failure_after_verification ControllerJs
                   (status_json n (JObj (("success", JBool false) :: ("error", x)
                                         :: ("details", y) :: nil)))).
  { intros n x Hn. split; [|intros y]; repeat split; auto. }
  unfold Controller.processing_failure, bind, lift, ret.
  rewrite Hm, Hinner.
  destruct (to_boolean inner) eqn:Hi.
  - destruct (get_of_value inner "description" (truthy_not_nullish _ Hi)) as [x Hx].
    rewrite Hx.
    destruct (to_boolean x) eqn:Htx.
    + eexists. split; [reflexivity|]. apply Hflags. auto.
    + rewrite Hc, Hd.
      destruct (strict_eq_string c "BAD_REQUEST_ERROR"); rewrite ?Hm;
        eexists; (split; [reflexivity|]); apply Hflags; auto.
  - rewrite Hi, Hc, Hd.
    destruct (strict_eq_string c "BAD_REQUEST_ERROR"); rewrite ?Hm;
      eexists; (split; [reflexivity|]); apply Hflags; auto.
Qed.

(** C7 (amended).  For a request whose four fields are present:
    (a) a signature that is not the expected one is answered 400 with
        [verified:false] by [server.js] and with [success:false] by the
        controller, nothing being called;
    (b) when the signature matches and the fetch, or the capture of an
        authorized payment, is rejected with an error value, [server.js]
        answers 500 with [verified:true, captured:false], and the
        controller [success:false] under 400 or 500, with no [verified]
        or [captured] flag;
    (c) when the signature matches and the payment is captured by this
        request or was already, the answer is 200, with [verified:true,
        captured:true, payment_id, order_id, payment_details] in
        [server.js] and [success:true, message, payment] in the
        controller. *)
Theorem C7_three_outcomes
        (impl : implementation) (secret : string)
        (req_body o p s a : value) (sign : string) (gw : gateway) :
  reads req_body o p s a ->
  all_present o p s a = true ->
  signing_text o p = Ok sign ->
  let expected := JStr (Hmac.createHmac_sha256_hex (hmac_key impl secret) sign) in
  (s <> expected ->
   run (verify impl secret req_body) gw = ([], Ok (invalid_signature impl)))
  /\ (s = expected ->
      forall e, is_nullish e = false ->
        gw [] (PaymentsFetch p) = Rejects e
        \/ (exists payment currency,
              gw [] (PaymentsFetch p) = Resolves payment
              /\ get payment "status" = Ok (JStr "authorized")
              /\ get payment "currency" = Ok currency
              /\ gw [PaymentsFetch p]
                    (PaymentsCapture p a (capture_extra impl currency)) = Rejects e) ->
        exists r, outcome_of (verify impl secret req_body) gw = Ok r
                  /\ reports_failure_after_verification impl r)
  /\ (s = expected ->
      (forall payment,
          gw [] (PaymentsFetch p) = Resolves payment ->
          get payment "status" = Ok (JStr "captured") ->
          run (verify impl secret req_body) gw
          = ([PaymentsFetch p], Ok (captured_response impl true o p payment)))
      /\ (forall payment currency captured,
             gw [] (PaymentsFetch p) = Resolves payment ->
             get payment "status" = Ok (JStr "authorized") ->
             get payment "currency" = Ok currency ->
             gw [PaymentsFetch p]
                (PaymentsCapture p a (capture_extra impl currency)) = Resolves captured ->
             run (verify impl secret req_body) gw
             = ([PaymentsFetch p; PaymentsCapture p a (capture_extra impl currency)],
                Ok (captured_response impl false o p captured)))).
Proof.
  intros Hr Hall Hsign expected.
  assert (Hsigned : s = expected ->
            correctly_signed (hmac_key impl secret) req_body = true).
  { intros Hs. destruct Hr as (H1 & H2 & H3 & H4). unfold correctly_signed.
    rewrite H1, H2, H3, H4, Hall. unfold expected_signature. rewrite Hsign.
    now apply strict_eq_string_true. }
  split; [|split].
  - intros Hne.
    assert (Heq : strict_eq_string s
                    (Hmac.createHmac_sha256_hex (hmac_key impl secret) sign) = false).
    { destruct (strict_eq_string s _) eqn:E; auto.
      apply strict_eq_string_true in E. contradiction. }
    destruct impl; simpl verify; simpl hmac_key in Heq.
    + now rewrite (server_after_reads secret _ _ _ _ _ gw Hr), Hall, Hsign, Heq.
    + now rewrite (controller_after_reads secret _ _ _ _ _ gw Hr), Hall, Hsign, Heq.
  - intros Hs e He Hfail. unfold outcome_of.
    rewrite (signed_request_run impl secret _ _ _ _ _ gw Hr (Hsigned Hs)).
    destruct (get_of_value e "message" He) as [m Hm].
    destruct impl; simpl after_verification; simpl capture_extra in Hfail.
    + exists (capture_failed_server m).
      split; [|repeat split].
      unfold Server.fetch_and_capture, run, try_catch, bind, await, lift, ret.
      simpl.
      destruct Hfail as [Hf|(payment & currency & Hf & Hst & _ & Hc)].
      * rewrite Hf, Hm. reflexivity.
      * rewrite Hf, Hst. simpl. rewrite Hc, Hm. reflexivity.
    + unfold Controller.steps_2_to_4, run, try_catch, bind, await, lift, ret.
      simpl.
      destruct Hfail as [Hf|(payment & currency & Hf & Hst & Hcur & Hc)].
      * rewrite Hf.
        destruct (processing_failure_answers e gw [PaymentsFetch p] He)
          as (r & Hrun & Hflags).
        exists r. now rewrite Hrun.
      * rewrite Hf, Hst. simpl. rewrite Hcur, Hc.
        destruct (processing_failure_answers e gw
                    [PaymentsFetch p;
                     PaymentsCapture p a (Some (JObj [("currency", currency)]))] He)
          as (r & Hrun & Hflags).
        exists r. now rewrite Hrun.
  - intros Hs. split.
    + intros payment Hf Hst.
      rewrite (signed_request_run impl secret _ _ _ _ _ gw Hr (Hsigned Hs)).
      destruct impl; simpl after_verification;
        unfold Server.fetch_and_capture, Controller.steps_2_to_4,
          run, try_catch, bind, await, lift, ret;
        simpl; rewrite Hf, Hst; reflexivity.
    + intros payment currency captured Hf Hst Hcur Hc.
      rewrite (signed_request_run impl secret _ _ _ _ _ gw Hr (Hsigned Hs)).
      destruct impl; simpl after_verification; simpl capture_extra in *;
        unfold Server.fetch_and_capture, Controller.steps_2_to_4,
          run, try_catch, bind, await, lift, ret;
        simpl; rewrite Hf, Hst; simpl; rewrite ?Hcur, Hc; reflexivity.
Qed.

(** C8 (amended).  [GET /payments] of [server.js] races the listing call
    against its timer: it answers 504 when the timer fires first; for a
    rejection by an error value, 401 when its [statusCode] is 401,
    otherwise 504 when its message is that of the timer, otherwise 500;
    500 for an empty result; and 200 with [{success:true, data:{count,
    items}}] otherwise.  [getAllPayments] of the controller has no timer
    and one failure status: it does not answer while the gateway does
    not, answers 500 to every rejection by an error value and to an
    empty result, and 200 on success.  A rejection with [null] or
    [undefined] is answered by neither: the [catch] of each handler
    reads a property of the error and throws. *)
Theorem C8_listing_outcomes (now1 now2 : float) (gw : gateway) :
  let c := PaymentsAll (listing_options now1 now2) in
  let server := run (Server.list_payments now1 now2) gw in
  let controller := run (Controller.getAllPayments now1 now2) gw in
  (gw [] c = Pending ->
   server = ([c], Ok timed_out_response) /\ controller = ([c], Hang))
  /\ (forall e,
         gw [] c = Rejects e -> is_nullish e = false ->
         exists code message inner description,
           get e "statusCode" = Ok code /\ get e "message" = Ok message
           /\ get e "error" = Ok inner /\ get e "description" = Ok description
           /\ server
              = ([c], Ok (if strict_eq_number code 401 then bad_credentials_response
                          else if strict_eq_string message "Request timed out"
                               then timed_out_response
                               else listing_failed_server message inner description))
           /\ controller = ([c], Ok (listing_failed_controller message)))
  /\ (forall e,
         gw [] c = Rejects e -> is_nullish e = true ->
         server = ([c], Throw TypeError_nullish_read)
         /\ controller = ([c], Throw TypeError_nullish_read))
  /\ (forall v,
         gw [] c = Resolves v -> to_boolean v = false ->
         server = ([c], Ok (listing_failed_server
                              (JStr "No response from Razorpay") JUndefined JUndefined))
         /\ controller = ([c], Ok (listing_failed_controller
                                     (JStr "No response from Razorpay"))))
  /\ (forall v,
         gw [] c = Resolves v -> to_boolean v = true ->
         exists count items,
           get v "count" = Ok count /\ get v "items" = Ok items
           /\ server = ([c], Ok (listing_response count items))
           /\ controller = ([c], Ok (listing_response count items)))
  /\ status timed_out_response = 504
  /\ status bad_credentials_response = 401
  /\ (forall message inner description,
         status (listing_failed_server message inner description) = 500
         /\ status (listing_failed_controller message) = 500)
  /\ (forall count items,
         status (listing_response count items) = 200
         /\ field (listing_response count items) "success" = Some (JBool true)
         /\ field (listing_response count items) "data"
            = Some (JObj [("count", count); ("items", js_or items (JArr []))])).
Proof.
  cbv zeta. unfold listing_options.
  unfold Server.list_payments, Controller.getAllPayments, Server.payments_failure,
    run, try_catch, bind, await, await_race_timer, lift, ret, throw.
  simpl.
  split; [|split; [|split; [|split; [|split]]]].
  - intros H. rewrite H. split; reflexivity.
  - intros e H He. rewrite H.
    destruct (get_of_value e "statusCode" He) as [code Hcode].
    destruct (get_of_value e "message" He) as [message Hm].
    destruct (get_of_value e "error" He) as [inner Hinner].
    destruct (get_of_value e "description" He) as [description Hd].
    exists code, message, inner, description.
    rewrite Hm, Hcode, Hinner, Hd.
    repeat (split; [reflexivity|]).
    split; [|reflexivity].
    destruct (strict_eq_number code 401); [reflexivity|].
    destruct (strict_eq_string message "Request timed out"); reflexivity.
  - intros e H He. rewrite H.
    destruct e; try discriminate; split; reflexivity.
  - intros v H Hv. rewrite H, Hv. split; reflexivity.
  - intros v H Hv. rewrite H, Hv. simpl.
    apply truthy_not_nullish in Hv.
    destruct (get_of_value v "count" Hv) as [count Hcount].
    destruct (get_of_value v "items" Hv) as [items Hitems].
    exists count, items. rewrite Hcount, Hitems. repeat split; reflexivity.
  - repeat split; reflexivity.
Qed.

(** The controller treats a secret as it treats the trimmed secret. *)
Lemma controller_trims_secret (secret : string) (req_body : value) (gw : gateway) :
  run (verify ControllerJs secret req_body) gw
  = run (verify ControllerJs (trim secret) req_body) gw.
Proof.
  unfold verify, Controller.verifyAndCapturePayment.
  now rewrite TrimFacts.trim_idempotent.
Qed.

End Properties.

(* ================================================================== *)
(** ** Further properties of the handlers                               *)
(* ================================================================== *)

Module HexFacts.
Import Endpoints.

Lemma byte_of_land (x : Z) : 0 <= Z.land x 0xff < 256.
Proof.
  change 0xff with (Z.ones 8). rewrite Z.land_ones by lia.
  apply Z.mod_pos_bound. lia.
Qed.

Lemma digest_bytes (msg : list Z) :
  Forall (fun b => 0 <= b < 256) (Sha256.digest msg).
Proof.
  unfold Sha256.digest.
  generalize (fold_left Sha256.compress
                (Sha256.blocks (List.length (Sha256.words_of_bytes (Sha256.pad msg)))
                               (Sha256.words_of_bytes (Sha256.pad msg)))
                Sha256.H0).
  intros ws. induction ws as [|w ws IH]; [constructor|].
  change (flat_map Sha256.bytes_of_word (w :: ws))
    with (Sha256.bytes_of_word w ++ flat_map Sha256.bytes_of_word ws)%list.
  apply Forall_app. split; [|exact IH].
  unfold Sha256.bytes_of_word. repeat constructor; apply byte_of_land.
Qed.

Lemma hex_digit_lower (n : Z) :
  0 <= n < 16 -> is_lower_hex (Hmac.hex_digit n) = true.
Proof.
  intros H.
  assert (Hall : forallb (fun k => is_lower_hex (Hmac.hex_digit (Z.of_nat k)))
                         (seq 0 16) = true) by reflexivity.
  rewrite forallb_forall in Hall.
  specialize (Hall (Z.to_nat n)). rewrite Z2Nat.id in Hall by lia.
  apply Hall. apply in_seq. lia.
Qed.

Lemma hex_lower (bs : list Z) :
  Forall (fun b => 0 <= b < 256) bs -> all_chars is_lower_hex (Hmac.hex bs) = true.
Proof.
  induction 1 as [|b bs Hb _ IH]; simpl; [reflexivity|].
  rewrite IH, !hex_digit_lower; [reflexivity| |].
  - change 0xf with (Z.ones 4). rewrite Z.land_ones by lia.
    apply Z.mod_pos_bound. lia.
  - rewrite Z.shiftr_div_pow2 by lia. change (2 ^ 4) with 16.
    split; [apply Z.div_pos; lia | apply Z.div_lt_upper_bound; lia].
Qed.

(** The expected signature is made of the characters [0-9a-f]. *)
Lemma createHmac_sha256_hex_lower (key text : string) :
  all_chars is_lower_hex (Hmac.createHmac_sha256_hex key text) = true.
Proof.
  unfold Hmac.createHmac_sha256_hex, Hmac.hmac_sha256.
  apply hex_lower, digest_bytes.
Qed.

End HexFacts.

Section Further.
Import Js Gateway Request Endpoints Unfolding.
Context {rt : Runtime}.

(** Case analysis on whatever the goal still matches on. *)
Ltac split_cases :=
  repeat (simpl;
          match goal with
          | |- context [match ?g ?l ?c with Resolves _ => _ | _ => _ end] =>
              destruct (g l c) eqn:?
          | |- context [match get ?x ?k with _ => _ end] => destruct (get x k) eqn:?
          | |- context [match js_add_string_l ?t ?v with _ => _ end] =>
              destruct (js_add_string_l t v) eqn:?
          | |- context [match js_add_string_r ?v ?t with _ => _ end] =>
              destruct (js_add_string_r v t) eqn:?
          | |- context [match js_mul ?v ?w with _ => _ end] =>
              destruct (js_mul v w) eqn:?
          | |- context [if ?b then _ else _] => destruct b eqn:?
          end).

(** The calls of a verification request obey one discipline: at most two
    calls and no retry; a capture is the second call, follows the fetch
    of the same payment, is made only when that fetch reported
    [authorized], and carries the payment id and amount of the request
    (and, in the controller, the currency of the fetched payment). *)
Theorem verify_call_discipline
        (impl : implementation) (secret : string) (req_body : value) (gw : gateway) :
  (List.length (calls (verify impl secret req_body) gw) <= 2)%nat
  /\ forall id amount extra,
       In (PaymentsCapture id amount extra) (calls (verify impl secret req_body) gw) ->
       exists payment,
         calls (verify impl secret req_body) gw
         = [PaymentsFetch id; PaymentsCapture id amount extra]
         /\ get req_body "razorpay_payment_id" = Ok id
         /\ get req_body "amount" = Ok amount
         /\ gw [] (PaymentsFetch id) = Resolves payment
         /\ get payment "status" = Ok (JStr "authorized")
         /\ match impl with
            | ServerJs => extra = None
            | ControllerJs =>
                exists currency,
                  get payment "currency" = Ok currency
                  /\ extra = Some (JObj [("currency", currency)])
            end.
Proof.
  destruct (verify_calls_shape secret impl req_body gw)
    as [H|(o & p & s & a & (_ & Hp & _ & Ha) & _ & _ & Hl)].
  - rewrite H. split; [simpl; lia | intros ? ? ? []].
  - destruct Hl as [H|(payment & currency & H & Hf & Hst & Hcur)]; rewrite H.
    + split; [simpl; lia|]. intros id amount extra [Hin|[]]. discriminate.
    + split; [simpl; lia|]. intros id amount extra [Hin|[Hin|[]]]; [discriminate|].
      inversion Hin; subst id amount extra. exists payment.
      repeat split; auto.
      destruct impl; simpl; [reflexivity|]. exists currency. auto.
Qed.

(** ToString ends, and throws nothing but the engine's [TypeError]. *)
Lemma to_string_outcome (v : value) :
  (exists t, to_string v = Ok t) \/ to_string v = Throw TypeError_not_primitive.
Proof.
  induction v as [| | [|] | x | t | items IH | fields IH] using value_induction;
    simpl; eauto.
  - induction IH as [|x rest Hx _ IHrest]; [eauto|].
    assert (Hfirst :
              (exists t, match x with
                         | JUndefined | JNull => Ok ""
                         | _ => to_string x
                         end = Ok t)
              \/ match x with
                 | JUndefined | JNull => Ok ""
                 | _ => to_string x
                 end = Throw TypeError_not_primitive)
      by (destruct x; eauto).
    destruct Hfirst as [[t Ht]|Ht]; rewrite Ht; [|auto].
    destruct rest as [|y rest]; [eauto|].
    destruct IHrest as [[r Hr]|Hr]; rewrite Hr; eauto.
  - destruct (lookup "toString" fields); eauto.
Qed.

Lemma to_string_not_hang (v : value) : to_string v <> Hang.
Proof. destruct (to_string_outcome v) as [[t H]|H]; rewrite H; discriminate. Qed.

Lemma to_string_throws (v e : value) :
  to_string v = Throw e -> e = TypeError_not_primitive.
Proof.
  destruct (to_string_outcome v) as [[t H]|H]; rewrite H; intros E;
    [discriminate | now inversion E].
Qed.

Lemma js_add_string_l_not_hang (t : string) (v : value) :
  js_add_string_l t v <> Hang.
Proof.
  unfold js_add_string_l. pose proof (to_string_not_hang v).
  destruct (to_string v); congruence.
Qed.

Lemma js_add_string_r_not_hang (v : value) (t : string) :
  js_add_string_r v t <> Hang.
Proof.
  unfold js_add_string_r. pose proof (to_string_not_hang v).
  destruct (to_string v); congruence.
Qed.

Lemma signing_text_not_hang (o p : value) : signing_text o p <> Hang.
Proof.
  unfold signing_text. intros H.
  destruct (js_add_string_r o "|") eqn:E; try discriminate.
  - now apply js_add_string_l_not_hang in H.
  - now apply js_add_string_r_not_hang in E.
Qed.

Lemma signing_text_throws (o p e : value) :
  signing_text o p = Throw e -> e = TypeError_not_primitive.
Proof.
  unfold signing_text, js_add_string_r, js_add_string_l. intros H.
  destruct (to_string o) eqn:Eo.
  - destruct (to_string p) eqn:Ep; try discriminate.
    inversion H; subst. now apply to_string_throws in Ep.
  - inversion H; subst. now apply to_string_throws in Eo.
  - discriminate.
Qed.

Lemma js_mul_not_hang (v w : value) : js_mul v w <> Hang.
Proof.
  assert (Hn : forall x, to_number x <> Hang).
  { intros x. unfold to_number. pose proof (to_string_not_hang x).
    destruct x; try discriminate; destruct (to_string _); congruence. }
  unfold js_mul. pose proof (Hn v). pose proof (Hn w).
  destruct (to_number v); try congruence. destruct (to_number w); congruence.
Qed.

(** Closes a case in which a pure step is supposed never to end. *)
Ltac never_hangs :=
  exfalso;
  match goal with
  | H : get _ _ = Hang |- _ => exact (get_not_hang _ _ H)
  | H : js_mul _ _ = Hang |- _ => exact (js_mul_not_hang _ _ H)
  | H : js_add_string_l _ _ = Hang |- _ => exact (js_add_string_l_not_hang _ _ H)
  | H : js_add_string_r _ _ = Hang |- _ => exact (js_add_string_r_not_hang _ _ H)
  end.

Lemma get_throws_nullish (v : value) (k : string) (e : value) :
  get v k = Throw e -> is_nullish v = true /\ e = TypeError_nullish_read.
Proof.
  destruct v; simpl; intros H; try discriminate; try (inversion H; auto).
  destruct (lookup k fields); discriminate.
Qed.

(** The block of [server.js] that follows the check always answers,
    unless a call stays pending. *)
Lemma server_block_answers (o p a : value) (gw : gateway) :
  let r := run (after_verification ServerJs o p a) gw in
  (forall e, snd r <> Throw e)
  /\ (snd r = Hang ->
      exists log c, fst r = (log ++ [c])%list /\ gw log c = Pending).
Proof.
  cbv zeta. unfold after_verification, Server.fetch_and_capture,
    run, try_catch, bind, await, lift, ret, throw.
  split_cases; (split; [intros ? ?; discriminate | intros ?; try discriminate]);
    first [ never_hangs
          | match goal with
            | H : gw ?l ?c = Pending |- _ => exists l, c; split; [reflexivity | exact H]
            end ].
Qed.

(** [POST /verify-payment] of [server.js] never fails to answer by an
    exception, whatever the body and the gateway: its outer [catch]
    answers 500.  It leaves a request unanswered only while a call to the
    gateway stays pending, there being no timer on this path. *)
Theorem server_verify_always_answers
        (secret : string) (req_body : value) (gw : gateway) :
  (forall e, outcome_of (Server.verify_payment secret req_body) gw <> Throw e)
  /\ (outcome_of (Server.verify_payment secret req_body) gw = Hang ->
      exists log c,
        calls (Server.verify_payment secret req_body) gw = (log ++ [c])%list
        /\ gw log c = Pending).
Proof.
  unfold outcome_of, calls.
  destruct (get req_body "razorpay_order_id") as [o|e0|] eqn:Ho.
  - destruct (get_total_or_never _ _ "razorpay_payment_id" _ Ho) as [p Hp].
    destruct (get_total_or_never _ _ "razorpay_signature" _ Ho) as [s Hs].
    destruct (get_total_or_never _ _ "amount" _ Ho) as [a Ha].
    assert (Hr : reads req_body o p s a) by (repeat split; assumption).
    rewrite (server_after_reads secret _ _ _ _ _ gw Hr).
    destruct (negb (all_present o p s a));
      [split; [intros ? ?|intros ?]; discriminate|].
    destruct (signing_text o p) as [sign|e1|] eqn:Hsign;
      try (split; [intros ? ?|intros ?]; discriminate).
    + destruct (strict_eq_string s (Hmac.createHmac_sha256_hex secret sign));
        [|split; [intros ? ?|intros ?]; discriminate].
      apply (server_block_answers o p a gw).
    + now apply signing_text_not_hang in Hsign.
  - rewrite (server_unreadable secret _ _ gw Ho).
    split; [intros ? ?|intros ?]; discriminate.
  - now apply get_not_hang in Ho.
Qed.

(** When the gateway rejects the fetch of a correctly signed request with
    [null] or [undefined], reading the message of the error throws
    inside the [catch]: [server.js] then answers through its outer
    [catch], 500 with [verified:false], and the controller, which has no
    outer [catch], does not answer at all. *)
Theorem nullish_rejection_of_fetch
        (impl : implementation) (secret : string)
        (req_body o p s a e : value) (gw : gateway) :
  reads req_body o p s a ->
  correctly_signed (hmac_key impl secret) req_body = true ->
  gw [] (PaymentsFetch p) = Rejects e ->
  is_nullish e = true ->
  run (verify impl secret req_body) gw
  = ([PaymentsFetch p],
     match impl with
     | ServerJs => Ok internal_error_server
     | ControllerJs => Throw TypeError_nullish_read
     end).
Proof.
  intros Hr Hsigned Hf He.
  rewrite (signed_request_run impl secret _ _ _ _ _ gw Hr Hsigned).
  destruct impl; simpl after_verification;
    unfold Server.fetch_and_capture, Controller.steps_2_to_4,
      Controller.processing_failure, run, try_catch, bind, await, lift, ret;
    simpl; rewrite Hf; destruct e; try discriminate; reflexivity.
Qed.

(** Neither verification handler has a timer: while the gateway leaves
    the fetch of a correctly signed request pending, the request is not
    answered, and nothing else is called. *)
Theorem verify_waits_for_the_gateway
        (impl : implementation) (secret : string)
        (req_body o p s a : value) (gw : gateway) :
  reads req_body o p s a ->
  correctly_signed (hmac_key impl secret) req_body = true ->
  gw [] (PaymentsFetch p) = Pending ->
  run (verify impl secret req_body) gw = ([PaymentsFetch p], Hang).
Proof.
  intros Hr Hsigned Hf.
  rewrite (signed_request_run impl secret _ _ _ _ _ gw Hr Hsigned).
  destruct impl; simpl after_verification;
    unfold Server.fetch_and_capture, Controller.steps_2_to_4,
      run, try_catch, bind, await, lift, ret;
    simpl; rewrite Hf; reflexivity.
Qed.

(** An error of the gateway that carries [error.description] is answered
    400 by the controller with that description as it is, whatever its
    [statusCode] or [code], be the failed call the fetch or the capture. *)
Theorem controller_relays_gateway_description
        (secret : string) (req_body o p s a e inner description : value)
        (gw : gateway) :
  reads req_body o p s a ->
  correctly_signed (trim secret) req_body = true ->
  get e "error" = Ok inner ->
  to_boolean inner = true ->
  get inner "description" = Ok description ->
  to_boolean description = true ->
  gw [] (PaymentsFetch p) = Rejects e
  \/ (exists payment currency,
         gw [] (PaymentsFetch p) = Resolves payment
         /\ get payment "status" = Ok (JStr "authorized")
         /\ get payment "currency" = Ok currency
         /\ gw [PaymentsFetch p]
               (PaymentsCapture p a (Some (JObj [("currency", currency)])))
            = Rejects e) ->
  outcome_of (Controller.verifyAndCapturePayment secret req_body) gw
  = Ok (status_json 400 (JObj [("success", JBool false); ("error", description)])).
Proof.
  intros Hr Hsigned Hinner Hti Hd Htd Hfail.
  unfold outcome_of.
  change (Controller.verifyAndCapturePayment secret req_body)
    with (verify ControllerJs secret req_body).
  rewrite (signed_request_run ControllerJs secret _ _ _ _ _ gw Hr Hsigned).
  destruct (get_total_or_never _ _ "message" _ Hinner) as [m Hm].
  simpl after_verification.
  unfold Controller.steps_2_to_4, Controller.processing_failure,
    run, try_catch, bind, await, lift, ret.
  simpl.
  destruct Hfail as [Hf|(payment & currency & Hf & Hst & Hcur & Hc)].
  - rewrite Hf, Hm, Hinner, Hti, Hd, Htd. reflexivity.
  - rewrite Hf, Hst. simpl. rewrite Hcur, Hc, Hm, Hinner, Hti, Hd, Htd. reflexivity.
Qed.

(** A fetch that resolves with [null] or [undefined] is a failure after
    verification for both handlers: each answers 500, [server.js] with
    [verified:true, captured:false], the controller with [success:false],
    and nothing is captured. *)
Theorem fetched_nothing
        (impl : implementation) (secret : string)
        (req_body o p s a payment : value) (gw : gateway) :
  reads req_body o p s a ->
  correctly_signed (hmac_key impl secret) req_body = true ->
  gw [] (PaymentsFetch p) = Resolves payment ->
  is_nullish payment = true ->
  calls (verify impl secret req_body) gw = [PaymentsFetch p]
  /\ exists r,
       outcome_of (verify impl secret req_body) gw = Ok r
       /\ status r = 500
       /\ reports_failure_after_verification impl r.
Proof.
  intros Hr Hsigned Hf Hnull. unfold calls, outcome_of.
  rewrite (signed_request_run impl secret _ _ _ _ _ gw Hr Hsigned).
  destruct impl; simpl after_verification;
    unfold Server.fetch_and_capture, Controller.steps_2_to_4,
      Controller.processing_failure, run, try_catch, bind, await, lift, ret;
    simpl; rewrite Hf; destruct payment; try discriminate; simpl;
    (split; [reflexivity|]); eexists; (split; [reflexivity|]);
    (split; [reflexivity|]); simpl; unfold field; simpl; auto 10.
Qed.

(** Turns every read that threw into the fact that its object was
    [null] or [undefined], and every conversion that threw into the
    engine's error. *)
Ltac explain_throws :=
  repeat match goal with
         | H : get _ _ = Throw _ |- _ =>
             apply get_throws_nullish in H; destruct H as [? ?]
         | H : js_add_string_l _ _ = Throw _ |- _ =>
             unfold js_add_string_l in H
         | H : match to_string ?v with _ => _ end = Throw _ |- _ =>
             destruct (to_string v) eqn:?; try discriminate; inversion H; clear H
         | H : to_string _ = Throw _ |- _ => apply to_string_throws in H
         end;
  subst.

Lemma processing_failure_of_engine_error (msg : string) (gw : gateway)
      (log : list call) :
  exists r, Controller.processing_failure (Error msg) gw log = (log, Ok r).
Proof. unfold Controller.processing_failure, bind, lift, ret. simpl. eauto. Qed.

Lemma controller_block_throws (p a e : value) (gw : gateway) :
  snd (run (after_verification ControllerJs p p a) gw) = Throw e ->
  exists log c x,
    fst (run (after_verification ControllerJs p p a) gw) = (log ++ [c])%list
    /\ gw log c = Rejects x /\ is_nullish x = true.
Proof.
  unfold after_verification, Controller.steps_2_to_4, Controller.processing_failure,
    run, try_catch, bind, await, lift, ret.
  split_cases; intros Hout; try discriminate; explain_throws;
    try discriminate;
    first [ never_hangs
          | match goal with
            | Ht : to_boolean ?v = true, Hn : is_nullish ?v = true |- _ =>
                apply truthy_not_nullish in Ht; congruence
            end
          | match goal with
            | H : gw ?l ?c = Rejects ?x, Hn : is_nullish ?x = true |- _ =>
                exists l, c, x; repeat split; assumption
            end ].
Qed.

(** The controller leaves a request without an answer, by an exception
    that escapes its [catch], in one case only: a call to the gateway was
    rejected with [null] or [undefined]. *)
Theorem controller_unanswered_only_on_nullish_rejection
        (secret : string) (req_body e : value) (gw : gateway) :
  outcome_of (Controller.verifyAndCapturePayment secret req_body) gw = Throw e ->
  exists log c x,
    calls (Controller.verifyAndCapturePayment secret req_body) gw = (log ++ [c])%list
    /\ gw log c = Rejects x
    /\ is_nullish x = true.
Proof.
  unfold outcome_of, calls.
  destruct (get req_body "razorpay_order_id") as [o|e0|] eqn:Ho.
  - destruct (get_total_or_never _ _ "razorpay_payment_id" _ Ho) as [p Hp].
    destruct (get_total_or_never _ _ "razorpay_signature" _ Ho) as [s Hs].
    destruct (get_total_or_never _ _ "amount" _ Ho) as [a Ha].
    assert (Hr : reads req_body o p s a) by (repeat split; assumption).
    rewrite (controller_after_reads secret _ _ _ _ _ gw Hr).
    destruct (negb (all_present o p s a)); [discriminate|].
    destruct (signing_text o p) as [sign|e1|] eqn:Hsign; [| |discriminate].
    + destruct (strict_eq_string s (Hmac.createHmac_sha256_hex (trim secret) sign));
        [|discriminate].
      apply (controller_block_throws p a e gw).
    + apply signing_text_throws in Hsign. subst e1.
      destruct (processing_failure_of_engine_error
                  "Cannot convert object to primitive value" gw []) as [r Hrun].
      unfold run, TypeError_not_primitive. rewrite Hrun. discriminate.
  - destruct (get_throws_nullish _ _ _ Ho) as [_ He0]. subst e0.
    rewrite (controller_unreadable secret _ _ gw Ho).
    destruct (processing_failure_of_engine_error
                "Cannot read properties of undefined or null" gw []) as [r Hrun].
    unfold run, TypeError_nullish_read. rewrite Hrun. discriminate.
  - now apply get_not_hang in Ho.
Qed.

(** A request reaches the gateway exactly when it is correctly signed. *)
Lemma accepted_iff_signed
      (impl : implementation) (secret : string) (req_body : value) (gw : gateway) :
  calls (verify impl secret req_body) gw <> []
  <-> correctly_signed (hmac_key impl secret) req_body = true.
Proof.
  split.
  - intros Hcalls.
    destruct (verify_calls_shape secret impl req_body gw)
      as [H|(o & p & s & a & _ & Hsigned & _)]; [contradiction | exact Hsigned].
  - intros Hsigned.
    assert (H := Hsigned). unfold correctly_signed, expected_signature in H.
    destruct (get req_body "razorpay_order_id") as [o| |] eqn:Ho; try discriminate.
    destruct (get req_body "razorpay_payment_id") as [p| |] eqn:Hp; try discriminate.
    destruct (get req_body "razorpay_signature") as [s| |] eqn:Hs; try discriminate.
    destruct (get req_body "amount") as [a| |] eqn:Ha; try discriminate.
    apply andb_true_iff in H. destruct H as [Hall Heq].
    destruct (signing_text o p) as [sign| |] eqn:Hsign; try discriminate.
    apply strict_eq_string_true in Heq.
    assert (Hr : reads req_body o p s a) by (repeat split; assumption).
    pose proof (signed_request_fetches impl secret _ _ _ _ _ _ gw Hr Hall Hsign Heq)
      as Hhd.
    intros Hnil. rewrite Hnil in Hhd. discriminate.
Qed.

(** A request is taken past the signature check only with a signature
    that is a string of exactly 64 characters, all of them in [0-9a-f]: a
    signature of another type, of another length, or in upper case is
    never accepted. *)
Theorem accepted_signature_shape
        (impl : implementation) (secret : string) (req_body : value) (gw : gateway) :
  calls (verify impl secret req_body) gw <> [] ->
  exists signature,
    get req_body "razorpay_signature" = Ok (JStr signature)
    /\ String.length signature = 64%nat
    /\ all_chars is_lower_hex signature = true.
Proof.
  intros Hcalls.
  destruct (verify_calls_shape secret impl req_body gw)
    as [H|(o & p & s & a & (Ho & Hp & Hs & Ha) & Hsigned & _)]; [contradiction|].
  unfold correctly_signed, expected_signature in Hsigned.
  rewrite Ho, Hp, Hs, Ha in Hsigned.
  apply andb_true_iff in Hsigned. destruct Hsigned as [_ Heq].
  destruct (signing_text o p) as [sign| |]; try discriminate.
  apply strict_eq_string_true in Heq. subst s.
  eexists. split; [exact Hs|]. split.
  - apply DigestFacts.createHmac_sha256_hex_length.
  - apply HexFacts.createHmac_sha256_hex_lower.
Qed.

Lemma bar_splits (o o' p p' : string) :
  has_bar o = false -> has_bar o' = false ->
  o ++ "|" ++ p = o' ++ "|" ++ p' -> o = o' /\ p = p'.
Proof.
  revert o'. induction o as [|c o IH]; intros [|c' o'] Hb Hb' H; simpl in *.
  - inversion H. auto.
  - inversion H; subst c'. rewrite Ascii.eqb_refl in Hb'. discriminate.
  - inversion H; subst c. rewrite Ascii.eqb_refl in Hb. discriminate.
  - inversion H; subst c'.
    apply orb_false_iff in Hb, Hb'.
    destruct (IH o' (proj2 Hb) (proj2 Hb') H2) as [-> ->]. auto.
Qed.

(** For identifiers that do not contain the delimiter, the signed text
    determines the pair (order, payment): two such pairs with the same
    signed text are the same pair. *)
Theorem signed_text_determines_ids (o p o' p' : string) :
  has_bar o = false -> has_bar o' = false ->
  signing_text (JStr o) (JStr p) = signing_text (JStr o') (JStr p') ->
  o = o' /\ p = p'.
Proof.
  intros Hb Hb'. rewrite !signing_text_strings. intros H.
  apply bar_splits; auto. congruence.
Qed.

Lemma correctly_signed_body (key : string) (o p s a : value) :
  correctly_signed key (verification_body o p s a)
  = all_present o p s a
    && match expected_signature key o p with
       | Some expected => strict_eq_string s expected
       | None => false
       end.
Proof. reflexivity. Qed.

(** The delimiter is not escaped: the pairs (a|b, c) and (a, b|c) have the
    same signed text, so that the handler takes a request for one past
    the signature check exactly when it takes the request for the other,
    with the same signature, past it. *)
Theorem delimiter_not_escaped
        (impl : implementation) (secret a b c : string) (signature amount : value)
        (gw gw' : gateway) :
  a <> "" -> c <> "" ->
  calls (verify impl secret
           (verification_body (JStr (a ++ "|" ++ b)) (JStr c) signature amount)) gw
  <> []
  <-> calls (verify impl secret
               (verification_body (JStr a) (JStr (b ++ "|" ++ c)) signature amount)) gw'
      <> [].
Proof.
  intros Ha Hc. rewrite !accepted_iff_signed, !correctly_signed_body.
  unfold expected_signature. rewrite !signing_text_strings.
  replace ((a ++ "|" ++ b) ++ "|" ++ c) with (a ++ "|" ++ b ++ "|" ++ c)
    by (now rewrite append_assoc).
  assert (H1 : String.eqb (a ++ "|" ++ b) "" = false)
    by (destruct a; [contradiction | reflexivity]).
  assert (H2 : String.eqb a "" = false) by (destruct a; [contradiction | reflexivity]).
  assert (H3 : String.eqb c "" = false) by (destruct c; [contradiction | reflexivity]).
  assert (H4 : String.eqb (b ++ "|" ++ c) "" = false) by (destruct b; reflexivity).
  unfold all_present, to_boolean. rewrite H1, H2, H3, H4. reflexivity.
Qed.

(** *** Create order *)

(** A create-order handler answers every request the gateway settles:
    it makes at most one call; when it makes none (the body cannot be
    read or the amount cannot be converted) and when the call is
    rejected, whatever the error, the answer is the one fixed 500; when
    the call resolves, the answer is 200 with the order of the gateway as
    it is. *)
Theorem create_order_always_answers
        (impl : implementation) (now : float) (req_body : value) (gw : gateway) :
  let l := calls (create impl now req_body) gw in
  let r := outcome_of (create impl now req_body) gw in
  (forall e, r <> Throw e)
  /\ (l = [] -> r = Ok create_failed)
  /\ (forall options,
         l = [OrdersCreate options] ->
         r = match gw [] (OrdersCreate options) with
             | Resolves order => Ok (json order)
             | Rejects _ => Ok create_failed
             | Pending => Hang
             end)
  /\ (l = [] \/ exists options, l = [OrdersCreate options]).
Proof.
  cbv zeta. unfold calls, outcome_of.
  destruct impl; simpl create;
    unfold Server.create_order, Controller.createOrder,
      run, try_catch, bind, await, lift, ret, js_add_string_l;
    split_cases; try never_hangs;
    (split; [intros ? ?; discriminate|]);
    (split; [intros ?; try discriminate; reflexivity|]);
    (split; [intros ? Heq; inversion Heq; subst;
             match goal with H : gw _ _ = _ |- _ => rewrite H end; reflexivity
            | first [left; reflexivity | right; eexists; reflexivity]]).
Qed.

(** The currency defaults to INR only when the body has no [currency] at
    all: any value that is there, [null] and the empty string included,
    is passed to the gateway as it is; the amount is the number the body
    denotes, times 100. *)
Theorem create_order_places
        (impl : implementation) (now : float)
        (req_body amount currency : value) (n : float) (gw : gateway) :
  get req_body "amount" = Ok amount ->
  get req_body "currency" = Ok currency ->
  to_number amount = Ok n ->
  calls (create impl now req_body) gw = [OrdersCreate (order_options n currency now)]
  /\ (currency = JUndefined ->
      get (order_options n currency now) "currency" = Ok (JStr "INR"))
  /\ (currency <> JUndefined ->
      get (order_options n currency now) "currency" = Ok currency).
Proof.
  intros Ha Hc Hn. split; [|split].
  - unfold calls, run.
    destruct impl; simpl create;
      unfold Server.create_order, Controller.createOrder,
        try_catch, bind, lift, await, ret, js_mul;
      rewrite Ha, Hc, Hn; simpl;
      destruct (gw [] _); reflexivity.
  - intros ->. reflexivity.
  - intros Hne. destruct currency; try reflexivity. contradiction.
Qed.

(** Nothing validates the amount of an order: a body without [amount]
    places an order whose amount is NaN, and a body whose amount is
    [null] an order for 0; the gateway is called in both cases. *)
Theorem create_order_does_not_validate
        (impl : implementation) (now : float)
        (req_body amount currency : value) (gw : gateway) :
  get req_body "amount" = Ok amount ->
  get req_body "currency" = Ok currency ->
  amount = JUndefined \/ amount = JNull ->
  exists x,
    calls (create impl now req_body) gw
    = [OrdersCreate (JObj [("amount", JNum x);
                           ("currency",
                            match currency with JUndefined => JStr "INR" | c => c end);
                           ("receipt", JStr ("order_" ++ NumberToString now))])]
    /\ (amount = JUndefined -> PrimFloat.is_nan x = true)
    /\ (amount = JNull -> PrimFloat.eqb x 0 = true).
Proof.
  intros Ha Hc Hamount.
  assert (Hcalls : forall n, to_number amount = Ok n ->
            calls (create impl now req_body) gw
            = [OrdersCreate (order_options n currency now)]).
  { intros n Hn. unfold calls, run.
    destruct impl; simpl create;
      unfold Server.create_order, Controller.createOrder,
        try_catch, bind, lift, await, ret, js_mul;
      rewrite Ha, Hc, Hn; simpl;
      destruct (gw [] _); reflexivity. }
  destruct Hamount as [->| ->].
  - exists (PrimFloat.nan * 100)%float. split; [now apply Hcalls|].
    split; [reflexivity | discriminate].
  - exists (PrimFloat.zero * 100)%float. split; [now apply Hcalls|].
    split; [discriminate | reflexivity].
Qed.

(** *** Listing and fetching payments *)

(** When the gateway rejects the listing call with [null] or
    [undefined], the [catch] of either handler throws on reading the
    message of the error, and the request is not answered. *)
Theorem listing_nullish_rejection
        (impl : implementation) (now1 now2 : float) (e : value) (gw : gateway) :
  gw [] (PaymentsAll (listing_options now1 now2)) = Rejects e ->
  is_nullish e = true ->
  run (list_all impl now1 now2) gw
  = ([PaymentsAll (listing_options now1 now2)], Throw TypeError_nullish_read).
Proof.
  intros Hf He. unfold listing_options in *.
  destruct impl; simpl list_all;
    unfold Server.list_payments, Controller.getAllPayments, Server.payments_failure,
      run, try_catch, bind, await, await_race_timer, lift, ret;
    simpl; rewrite Hf; destruct e; try discriminate; reflexivity.
Qed.

(** The 504 answer of [server.js] does not tell the timer from the
    gateway: a rejection by the gateway whose message is "Request timed
    out" and whose status code is not 401 gets the very answer of a call
    that was still pending when the timer fired. *)
Theorem timeout_answer_is_ambiguous
        (now1 now2 : float) (e code : value) (gw gw' : gateway) :
  gw [] (PaymentsAll (listing_options now1 now2)) = Rejects e ->
  get e "statusCode" = Ok code ->
  strict_eq_number code 401 = false ->
  get e "message" = Ok (JStr "Request timed out") ->
  gw' [] (PaymentsAll (listing_options now1 now2)) = Pending ->
  run (Server.list_payments now1 now2) gw = run (Server.list_payments now1 now2) gw'
  /\ outcome_of (Server.list_payments now1 now2) gw = Ok timed_out_response.
Proof.
  intros Hf Hcode H401 Hm Hp. unfold listing_options in *.
  unfold outcome_of, Server.list_payments, Server.payments_failure,
    run, try_catch, bind, await_race_timer, lift, ret.
  simpl. rewrite Hf, Hp, Hm, Hcode, H401. simpl. split; reflexivity.
Qed.

(** Thanks to its timer, [GET /payments] of [server.js] never waits for
    the gateway without end: whatever the gateway does, the handler makes
    its one call and comes to an end, which is an answer unless the
    gateway rejected with [null] or [undefined]. *)
Theorem server_listing_always_settles (now1 now2 : float) (gw : gateway) :
  let c := PaymentsAll (listing_options now1 now2) in
  calls (Server.list_payments now1 now2) gw = [c]
  /\ outcome_of (Server.list_payments now1 now2) gw <> Hang
  /\ (forall e,
         outcome_of (Server.list_payments now1 now2) gw = Throw e ->
         exists x, gw [] c = Rejects x /\ is_nullish x = true).
Proof.
  cbv zeta. unfold listing_options, calls, outcome_of,
    Server.list_payments, Server.payments_failure,
    run, try_catch, bind, await_race_timer, lift, ret, throw.
  split_cases; try never_hangs; simpl;
    (split; [reflexivity|split; [discriminate|]]);
    intros thrown Hout; try discriminate.
  all: explain_throws;
    try match goal with
        | H : is_nullish (Error _) = true |- _ => discriminate H
        | H : is_nullish TypeError_nullish_read = true |- _ => discriminate H
        | H : negb (to_boolean ?v) = false, N : is_nullish ?v = true |- _ =>
            apply negb_false_iff, truthy_not_nullish in H; congruence
        end.
  all: eexists; split; [reflexivity | assumption].
Qed.

(** Fetching one payment makes exactly one call, the fetch of the path
    parameter, and answers whenever that call settles: 200 with the
    payment when it resolves, and one fixed 500 when it is rejected,
    whatever the error, even [null]; nothing of the error is shown. *)
Theorem get_payment_outcomes
        (impl : implementation) (paymentId : string) (gw : gateway) :
  run (get_one impl paymentId) gw
  = ([PaymentsFetch (JStr paymentId)],
     match gw [] (PaymentsFetch (JStr paymentId)) with
     | Resolves payment => Ok (payment_found payment)
     | Rejects _ => Ok payment_lookup_failed
     | Pending => Hang
     end).
Proof.
  destruct impl; simpl get_one;
    unfold Server.get_payment, Controller.getPayment,
      run, try_catch, bind, await, ret;
    simpl; destruct (gw [] _); reflexivity.
Qed.

(** *** What a 200 means *)

(** The [catch] of the controller never answers 200. *)
Lemma processing_failure_not_200 (e : value) (gw : gateway) (log : list call)
      (r : response) :
  snd (Controller.processing_failure e gw log) = Ok r -> status r <> 200.
Proof.
  destruct (is_nullish e) eqn:He.
  - destruct e; try discriminate; unfold Controller.processing_failure, bind, lift;
      simpl; discriminate.
  - destruct (processing_failure_answers e gw log He) as (r' & Hrun & [H400|H500] & _);
      rewrite Hrun; simpl; intros E; inversion E; subst; lia.
Qed.

(** Reads a successful outcome off the facts of a case. *)
Ltac read_success :=
  repeat match goal with
         | H : strict_eq_string _ _ = true |- _ =>
             apply strict_eq_string_true in H; subst
         | H : negb _ = false |- _ => apply negb_false_iff in H
         end;
  eexists; split; [first [reflexivity | eassumption]|];
  first [ left; assumption
        | right; split; [assumption|]; do 3 eexists; eassumption ].

Lemma block_success (impl : implementation) (o p a : value) (gw : gateway)
      (r : response) :
  snd (run (after_verification impl o p a) gw) = Ok r ->
  status r = 200 ->
  exists payment,
    gw [] (PaymentsFetch p) = Resolves payment
    /\ (get payment "status" = Ok (JStr "captured")
        \/ (get payment "status" = Ok (JStr "authorized")
            /\ exists amount extra captured,
                 gw [PaymentsFetch p] (PaymentsCapture p amount extra)
                 = Resolves captured)).
Proof.
  destruct impl; simpl after_verification.
  - unfold Server.fetch_and_capture, run, try_catch, bind, await, lift, ret, throw.
    split_cases; intros Hout Hstatus; try discriminate;
      inversion Hout; subst r; try discriminate Hstatus; read_success.
  - unfold Controller.steps_2_to_4.
    pose proof processing_failure_not_200 as Hcatch. revert Hcatch.
    generalize Controller.processing_failure. intros handler Hcatch.
    unfold run, try_catch, bind, await, lift, ret, throw.
    split_cases; intros Hout Hstatus; try discriminate;
      try (exfalso; exact (Hcatch _ _ _ _ Hout Hstatus));
      inversion Hout; subst r; try discriminate Hstatus; read_success.
Qed.

(** A request that is not correctly signed is never answered 200. *)
Lemma unsigned_answer_not_200
      (impl : implementation) (secret : string) (req_body : value) (gw : gateway)
      (r : response) :
  correctly_signed (hmac_key impl secret) req_body = false ->
  outcome_of (verify impl secret req_body) gw = Ok r ->
  status r <> 200.
Proof.
  intros Hsigned. unfold outcome_of.
  destruct (get req_body "razorpay_order_id") as [o|e0|] eqn:Ho.
  - destruct (get_total_or_never _ _ "razorpay_payment_id" _ Ho) as [p Hp].
    destruct (get_total_or_never _ _ "razorpay_signature" _ Ho) as [s Hs].
    destruct (get_total_or_never _ _ "amount" _ Ho) as [a Ha].
    assert (Hr : reads req_body o p s a) by (repeat split; assumption).
    unfold correctly_signed, expected_signature in Hsigned.
    rewrite Ho, Hp, Hs, Ha in Hsigned.
    destruct impl; simpl verify; simpl hmac_key in Hsigned.
    + rewrite (server_after_reads secret _ _ _ _ _ gw Hr).
      destruct (all_present o p s a); simpl in *;
        [|intros E; inversion E; subst; discriminate].
      destruct (signing_text o p) as [sign| |];
        try (intros E; inversion E; subst; discriminate).
      rewrite Hsigned. intros E; inversion E; subst; discriminate.
    + rewrite (controller_after_reads secret _ _ _ _ _ gw Hr).
      destruct (all_present o p s a); simpl in *;
        [|intros E; inversion E; subst; discriminate].
      destruct (signing_text o p) as [sign|e1|];
        try (intros E; inversion E; subst; discriminate).
      * rewrite Hsigned. intros E; inversion E; subst; discriminate.
      * apply processing_failure_not_200.
  - destruct impl; simpl verify.
    + rewrite (server_unreadable secret _ _ gw Ho).
      intros E; inversion E; subst; discriminate.
    + rewrite (controller_unreadable secret _ _ gw Ho).
      apply processing_failure_not_200.
  - now apply get_not_hang in Ho.
Qed.

(** Success is never reported falsely: a verification handler answers 200
    only to a correctly signed request whose payment the gateway
    returned either as [captured], or as [authorized] with the capture
    call then resolving. *)
Theorem success_means_captured
        (impl : implementation) (secret : string) (req_body : value) (gw : gateway)
        (r : response) :
  outcome_of (verify impl secret req_body) gw = Ok r ->
  status r = 200 ->
  correctly_signed (hmac_key impl secret) req_body = true
  /\ exists p payment,
       get req_body "razorpay_payment_id" = Ok p
       /\ gw [] (PaymentsFetch p) = Resolves payment
       /\ (get payment "status" = Ok (JStr "captured")
           \/ (get payment "status" = Ok (JStr "authorized")
               /\ exists amount extra captured,
                    gw [PaymentsFetch p] (PaymentsCapture p amount extra)
                    = Resolves captured)).
Proof.
  intros Hout Hstatus.
  destruct (correctly_signed (hmac_key impl secret) req_body) eqn:Hsigned.
  - split; [reflexivity|].
    assert (H := Hsigned). unfold correctly_signed in H.
    destruct (get req_body "razorpay_order_id") as [o| |] eqn:Ho; try discriminate.
    destruct (get req_body "razorpay_payment_id") as [p| |] eqn:Hp; try discriminate.
    destruct (get req_body "razorpay_signature") as [s| |] eqn:Hs; try discriminate.
    destruct (get req_body "amount") as [a| |] eqn:Ha; try discriminate.
    assert (Hr : reads req_body o p s a) by (repeat split; assumption).
    unfold outcome_of in Hout.
    rewrite (signed_request_run impl secret _ _ _ _ _ gw Hr Hsigned) in Hout.
    destruct (block_success impl o p a gw r Hout Hstatus) as (payment & Hf & Hcases).
    exists p, payment. auto.
  - exfalso. exact (unsigned_answer_not_200 impl secret req_body gw r Hsigned Hout Hstatus).
Qed.

(** *** Logging *)

(** Case analysis for a logged handler against the handler without its
    logging. *)
Ltac split_logged :=
  unfold Logged.observable, Logged.start, Logged.try_catch, Logged.bind,
    Logged.await, Logged.lift, Logged.ret, Logged.throw,
    Logged.info, Logged.error, Logged.debug, Logged.log,
    run, try_catch, bind, await, lift, ret, throw;
  split_cases; try reflexivity; try never_hangs.

(** The [catch] of the controller with its logging call answers as the
    [catch] read without it. *)
Lemma processing_failure_transparent (e : value) (gw : gateway) (t : Logged.trace) :
  Controller.processing_failure e gw (Logged.made t)
  = (Logged.made (fst (LoggedController.processing_failure e gw t)),
     snd (LoggedController.processing_failure e gw t)).
Proof.
  unfold LoggedController.processing_failure, Controller.processing_failure,
    Logged.bind, Logged.lift, Logged.ret, Logged.error, Logged.log,
    bind, lift, ret.
  destruct (is_nullish e) eqn:He.
  - destruct e; try discriminate; reflexivity.
  - destruct (get_of_value e "message" He) as [m Hm].
    destruct (get_of_value e "code" He) as [c Hc].
    destruct (get_of_value e "description" He) as [d Hd].
    destruct (get_of_value e "metadata" He) as [md Hmd].
    destruct (get_of_value e "stack" He) as [st Hst].
    destruct (get_of_value e "error" He) as [inner Hinner].
    rewrite Hm, Hc, Hd, Hmd, Hst. simpl. rewrite Hinner.
    destruct (to_boolean inner) eqn:Hi.
    + destruct (get_of_value inner "description" (truthy_not_nullish _ Hi)) as [x Hx].
      rewrite Hx. destruct (to_boolean x); [reflexivity|].
      rewrite ?Hc, ?Hd. destruct (strict_eq_string c "BAD_REQUEST_ERROR");
        rewrite ?Hm; reflexivity.
    + rewrite Hi, ?Hc, ?Hd. destruct (strict_eq_string c "BAD_REQUEST_ERROR");
        rewrite ?Hm; reflexivity.
Qed.

(** The logging of the verification handlers is transparent: with every
    logging statement in place, each handler makes the calls and gives
    the answer of the handler read without them. *)
Theorem logging_is_transparent
        (impl : implementation) (secret : string) (req_body : value) (gw : gateway) :
  Logged.observable (logged_verify impl secret req_body) gw
  = run (verify impl secret req_body) gw.
Proof.
  destruct impl; simpl logged_verify; simpl verify.
  - unfold LoggedServer.verify_payment, Server.verify_payment,
      Server.fetch_and_capture.
    split_logged.
  - unfold LoggedController.verifyAndCapturePayment,
      Controller.verifyAndCapturePayment, Controller.steps_2_to_4.
    pose proof processing_failure_transparent as Hcatch. revert Hcatch.
    generalize Controller.processing_failure, LoggedController.processing_failure.
    intros plain logged Hcatch.
    split_logged;
      match goal with
      | |- (Logged.made (fst (logged ?e ?g ?t)), _) = _ =>
          exact (eq_sym (Hcatch e g t))
      end.
Qed.

(** The [catch] of the controller only adds to the log. *)
Lemma processing_failure_appends (e : value) (gw : gateway) (t : Logged.trace) :
  exists more,
    Logged.logged (fst (LoggedController.processing_failure e gw t))
    = (Logged.logged t ++ more)%list.
Proof.
  unfold LoggedController.processing_failure,
    Logged.bind, Logged.lift, Logged.ret, Logged.error, Logged.log.
  destruct (is_nullish e) eqn:He.
  - exists []. rewrite app_nil_r. destruct e; try discriminate; reflexivity.
  - destruct (get_of_value e "message" He) as [m Hm].
    destruct (get_of_value e "code" He) as [c Hc].
    destruct (get_of_value e "description" He) as [d Hd].
    destruct (get_of_value e "metadata" He) as [md Hmd].
    destruct (get_of_value e "stack" He) as [st Hst].
    destruct (get_of_value e "error" He) as [inner Hinner].
    rewrite Hm, Hc, Hd, Hmd, Hst. simpl. rewrite Hinner.
    eexists.
    destruct (to_boolean inner) eqn:Hi.
    + destruct (get_of_value inner "description" (truthy_not_nullish _ Hi)) as [x Hx].
      rewrite Hx.
      destruct (to_boolean x); [reflexivity|].
      destruct (strict_eq_string c "BAD_REQUEST_ERROR"); reflexivity.
    + rewrite Hi. destruct (strict_eq_string c "BAD_REQUEST_ERROR"); reflexivity.
Qed.

(** Both handlers log the expected signature: whenever the four fields
    are present, the handler hands to the logger, before it compares, an
    entry that holds the signature it received and the one it expects,
    be the received one right or wrong; the logger prints the data of
    that entry, and so writes the expected signature to the log file. *)
Theorem expected_signature_is_logged
        (impl : implementation) (secret : string)
        (req_body o p s a : value) (sign : string) (gw : gateway) :
  reads req_body o p s a ->
  all_present o p s a = true ->
  signing_text o p = Ok sign ->
  let expected := Hmac.createHmac_sha256_hex (hmac_key impl secret) sign in
  In (signature_entry impl s expected)
     (Logged.entries (logged_verify impl secret req_body) gw)
  /\ forall (J : Logger.Json) (timestamp : string),
       Logger.written timestamp (signature_entry impl s expected)
       = "[" ++ timestamp ++ "] " ++ Logger.level (signature_entry impl s expected)
         ++ ": " ++ Logger.message (signature_entry impl s expected)
         ++ Logger.newline
         ++ Logger.JSON_stringify (Logger.data (signature_entry impl s expected))
         ++ Logger.newline.
Proof.
  intros (Ho & Hp & Hs & Ha) Hall Hsign expected. split.
  - unfold signing_text in Hsign.
    destruct (js_add_string_r o "|") as [prefix| |] eqn:Hprefix; try discriminate.
    unfold all_present in Hall.
    assert (Hmissing : negb (to_boolean o) || negb (to_boolean p)
                       || negb (to_boolean s) || negb (to_boolean a) = false).
    { repeat (apply andb_true_iff in Hall; destruct Hall as [Hall ?]).
      now rewrite Hall, H, H0, H1. }
    subst expected. unfold Logged.entries, signature_entry.
    destruct impl; simpl logged_verify; simpl hmac_key.
    + unfold LoggedServer.verify_payment,
        Logged.start, Logged.try_catch, Logged.bind,
        Logged.await, Logged.lift, Logged.ret, Logged.throw,
        Logged.info, Logged.error, Logged.debug, Logged.log.
      simpl. rewrite Ho, Hp, Hs, Ha, Hmissing, Hprefix, Hsign.
      split_cases; simpl; auto 10.
    + unfold LoggedController.verifyAndCapturePayment.
      pose proof processing_failure_appends as Hcatch. revert Hcatch.
      generalize LoggedController.processing_failure. intros logged Hcatch.
      unfold Logged.start, Logged.try_catch, Logged.bind,
        Logged.await, Logged.lift, Logged.ret, Logged.throw,
        Logged.info, Logged.error, Logged.debug, Logged.log.
      simpl. rewrite Ho, Hp, Hs, Ha, Hmissing, Hprefix, Hsign.
      split_cases; simpl; auto 10;
        match goal with
        | |- In _ (Logged.logged (fst (logged ?e ?g ?t))) =>
            destruct (Hcatch e g t) as [more Hmore]; rewrite Hmore;
            apply in_or_app; left; simpl; auto 10
        end.
  - intros J timestamp. destruct impl; unfold Logger.written, Logger.formatMessage;
      simpl; now rewrite !append_assoc.
Qed.

End Further.

(* ================================================================== *)
(** ** Examples, on the sample runtime                                  *)
(* ================================================================== *)

Import Js Gateway Request Sample.

Example sample_runtime_values :
  Js.NumberToString 1700000000000%float = "1700000000000"
  /\ Js.NumberToString (-17)%float = "-17"
  /\ Js.StringToNumber "500" = 500%float
  /\ Js.MathFloor 1700000000.5%float = 1700000000%float
  /\ Js.MathFloor (-0.5)%float = (-1)%float
  /\ Js.to_string (Js.JArr [Js.JNum 1; Js.JNull; Js.JStr "a"]) = Js.Ok "1,,a".
Proof. vm_compute. repeat split. Qed.

(** *** The scenario of the specification, run on both implementations *)

Lemma C1_signature_verifier_witness :
  reads signed_request order_id payment_id good_signature (JNum 500)
  /\ hd_error (calls (verify ServerJs secret signed_request)
                     (gateway_with_payment_in "authorized"))
     = Some (PaymentsFetch payment_id)
  /\ calls (verify ControllerJs secret forged_request)
           (gateway_with_payment_in "authorized") = [].
Proof.
  assert (Hr : forall sig, reads (verification_body order_id payment_id sig (JNum 500))
                                 order_id payment_id sig (JNum 500))
    by (intros sig; repeat split; reflexivity).
  split; [apply Hr|]. split.
  - apply (proj1 (C1_signature_verifier ServerJs) secret "order_ABC" "pay_XYZ"
                 good_signature (JNum 500) signed_request
                 (gateway_with_payment_in "authorized") (Hr _));
      [discriminate | discriminate | reflexivity | vm_compute; reflexivity].
  - apply (proj1 (C1_signature_verifier ControllerJs) secret "order_ABC" "pay_XYZ"
                 bad_signature (JNum 500) forged_request
                 (gateway_with_payment_in "authorized") (Hr _));
      [discriminate | discriminate | reflexivity | vm_compute; discriminate].
Defined.

Lemma C2_no_capture_without_verification_witness :
  correctly_signed (hmac_key ServerJs secret) forged_request = false
  /\ calls (verify ServerJs secret forged_request)
           (gateway_with_payment_in "authorized") = []
  /\ captures (calls (verify ServerJs secret forged_request)
                     (gateway_with_payment_in "authorized")) = [].
Proof.
  split; [vm_compute; reflexivity|].
  apply (C2_no_capture_without_verification ServerJs secret forged_request).
  vm_compute. reflexivity.
Defined.

(** A request without its amount. *)
Lemma C6_missing_field_rejected_witness :
  let req_body := JObj [("razorpay_order_id", order_id);
                        ("razorpay_payment_id", payment_id);
                        ("razorpay_signature", good_signature)] in
  reads req_body order_id payment_id good_signature JUndefined
  /\ run (verify ControllerJs secret req_body) (gateway_with_payment_in "authorized")
     = ([], Ok (missing_parameters ControllerJs)).
Proof.
  cbv zeta. split; [repeat split; reflexivity|].
  apply (C6_missing_field_rejected ControllerJs secret _ order_id payment_id
           good_signature JUndefined).
  - repeat split; reflexivity.
  - reflexivity.
Defined.

(** The signed request of the scenario, its amount turned into 0. *)
Lemma C9_zero_amount_treated_as_missing_witness :
  let req_body := verification_body order_id payment_id good_signature (JNum 0) in
  strict_eq_number (JNum 0) 0 = true
  /\ run (verify ServerJs secret req_body) (gateway_with_payment_in "authorized")
     = ([], Ok (missing_parameters ServerJs)).
Proof.
  cbv zeta. split; [reflexivity|].
  apply (C9_zero_amount_treated_as_missing ServerJs secret _ order_id payment_id
           good_signature (JNum 0)).
  - repeat split; reflexivity.
  - left. reflexivity.
Defined.

(** C9, as stated, fails where it says that a zero amount can never be
    captured: the amount "0", a string, is truthy, so that the signed
    request of the scenario with that amount is not rejected, and both
    handlers ask the gateway to capture "0", which is the number 0. *)
Lemma C9_counterexample :
  let req_body := verification_body order_id payment_id good_signature (JStr "0") in
  to_number (JStr "0") = Ok 0%float
  /\ correctly_signed secret req_body = true
  /\ run (verify ServerJs secret req_body) (gateway_with_payment_in "authorized")
     = ([PaymentsFetch payment_id; PaymentsCapture payment_id (JStr "0") None],
        Ok (captured_response ServerJs false order_id payment_id (payment_in "captured")))
  /\ run (verify ControllerJs secret req_body) (gateway_with_payment_in "authorized")
     = ([PaymentsFetch payment_id;
         PaymentsCapture payment_id (JStr "0") (Some (JObj [("currency", JStr "INR")]))],
        Ok (captured_response ControllerJs false order_id payment_id
                              (payment_in "captured")))
  /\ run (verify ServerJs secret req_body) (gateway_with_payment_in "authorized")
     <> ([], Ok (missing_parameters ServerJs)).
Proof.
  cbv zeta. split; [vm_compute; reflexivity|]. split; [vm_compute; reflexivity|].
  split; [vm_compute; reflexivity|]. split; [vm_compute; reflexivity|].
  vm_compute. discriminate.
Qed.

(** The number 500 on the two endpoints, in both implementations: an
    order for 50000, a capture of 500. *)
Lemma C10_amount_units_witness :
  get (JObj [("amount", JNum 500)]) "amount" = Ok (JNum 500)
  /\ to_number (JNum 500) = Ok 500%float
  /\ reads signed_request order_id payment_id good_signature (JNum 500)
  /\ correctly_signed secret signed_request = true
  /\ (forall impl,
         (exists currency,
             calls (create impl 1700000000000 (JObj [("amount", JNum 500)]))
                   (gateway_with_payment_in "authorized")
             = [OrdersCreate (JObj [("amount", JNum 50000);
                                    ("currency", currency);
                                    ("receipt", JStr "order_1700000000000")])])
         /\ calls (verify impl secret signed_request)
                  (gateway_with_payment_in "authorized")
            = [PaymentsFetch payment_id;
               PaymentsCapture payment_id (JNum 500) (capture_extra impl (JStr "INR"))]).
Proof.
  assert (Hr : reads signed_request order_id payment_id good_signature (JNum 500))
    by (repeat split; reflexivity).
  assert (Hsigned : forall impl,
             correctly_signed (hmac_key impl secret) signed_request = true)
    by (intros impl; destruct impl; vm_compute; reflexivity).
  split; [reflexivity|]. split; [reflexivity|]. split; [exact Hr|].
  split; [exact (Hsigned ServerJs)|].
  intros impl.
  destruct (C10_amount_units impl secret 1700000000000
              (JObj [("amount", JNum 500)]) (JNum 500) 500%float
              signed_request order_id payment_id good_signature (JNum 500)
              (payment_in "authorized")
              (gateway_with_payment_in "authorized")
              (gateway_with_payment_in "authorized")
              eq_refl eq_refl Hr (Hsigned impl) eq_refl eq_refl)
    as [[currency Hcreate] [[currency' [Hcur Hcapture]] _]].
  split.
  - exists currency. rewrite Hcreate. vm_compute. reflexivity.
  - rewrite Hcapture. inversion Hcur. reflexivity.
Defined.

Lemma C3_already_captured_witness :
  correctly_signed (hmac_key ServerJs secret) signed_request = true
  /\ run (verify ServerJs secret signed_request) (gateway_with_payment_in "captured")
     = ([PaymentsFetch payment_id],
        Ok (captured_response ServerJs true order_id payment_id (payment_in "captured"))).
Proof.
  split; [vm_compute; reflexivity|].
  apply (C3_already_captured ServerJs secret signed_request order_id payment_id
           good_signature (JNum 500) (payment_in "captured")
           (gateway_with_payment_in "captured")).
  - repeat split; reflexivity.
  - vm_compute. reflexivity.
  - reflexivity.
  - reflexivity.
Defined.

(** C3, as stated, fails on the controller: its answer for an already
    captured payment has no [captured] flag. *)
Lemma C3_counterexample :
  correctly_signed (hmac_key ControllerJs secret) signed_request = true
  /\ gateway_with_payment_in "captured" [] (PaymentsFetch payment_id)
     = Resolves (payment_in "captured")
  /\ get (payment_in "captured") "status" = Ok (JStr "captured")
  /\ exists r,
       outcome_of (verify ControllerJs secret signed_request)
                  (gateway_with_payment_in "captured") = Ok r
       /\ field r "captured" <> Some (JBool true).
Proof.
  split; [vm_compute; reflexivity|]. split; [reflexivity|]. split; [reflexivity|].
  eexists. split; [vm_compute; reflexivity|]. vm_compute. discriminate.
Qed.



Lemma C7_three_outcomes_witness :
  reads signed_request order_id payment_id good_signature (JNum 500)
  /\ all_present order_id payment_id good_signature (JNum 500) = true
  /\ signing_text order_id payment_id = Ok "order_ABC|pay_XYZ"
  /\ run (verify ServerJs secret forged_request) (gateway_with_payment_in "authorized")
     = ([], Ok (invalid_signature ServerJs))
  /\ (exists r,
         outcome_of (verify ServerJs secret signed_request)
                    (gateway_failing_capture server_error) = Ok r
         /\ status r = 500%Z
         /\ field r "verified" = Some (JBool true)
         /\ field r "captured" = Some (JBool false))
  /\ run (verify ServerJs secret signed_request) (gateway_with_payment_in "authorized")
     = ([PaymentsFetch payment_id; PaymentsCapture payment_id (JNum 500) None],
        Ok (captured_response ServerJs false order_id payment_id (payment_in "captured"))).
Proof.
  assert (Hr : forall sig, reads (verification_body order_id payment_id sig (JNum 500))
                                 order_id payment_id sig (JNum 500))
    by (intros sig; repeat split; reflexivity).
  assert (Hsig : good_signature
                 = JStr (Hmac.createHmac_sha256_hex (hmac_key ServerJs secret)
                                                    "order_ABC|pay_XYZ"))
    by (vm_compute; reflexivity).
  split; [apply Hr|]. split; [reflexivity|]. split; [reflexivity|].
  split; [|split].
  - apply (proj1 (C7_three_outcomes ServerJs secret forged_request order_id payment_id
                    bad_signature (JNum 500) "order_ABC|pay_XYZ"
                    (gateway_with_payment_in "authorized")
                    (Hr _) eq_refl eq_refl)).
    vm_compute. discriminate.
  - apply (proj1 (proj2 (C7_three_outcomes ServerJs secret signed_request
                    order_id payment_id good_signature (JNum 500) "order_ABC|pay_XYZ"
                    (gateway_failing_capture server_error)
                    (Hr _) eq_refl eq_refl)) Hsig server_error eq_refl).
    right. exists (payment_in "authorized"), (JStr "INR"). repeat split.
  - apply (proj2 (proj2 (proj2 (C7_three_outcomes ServerJs secret signed_request
                    order_id payment_id good_signature (JNum 500) "order_ABC|pay_XYZ"
                    (gateway_with_payment_in "authorized")
                    (Hr _) eq_refl eq_refl)) Hsig)
             (payment_in "authorized") (JStr "INR") (payment_in "captured"));
      reflexivity.
Defined.

(** C7, as stated, fails on the controller: its answer to a forged
    request carries no [verified] flag, and it is the very answer it
    gives to a correctly signed request whose fetch the gateway rejects
    with the error below, so that the two outcomes cannot be told apart. *)
Lemma C7_counterexample :
  correctly_signed (hmac_key ControllerJs secret) forged_request = false
  /\ correctly_signed (hmac_key ControllerJs secret) signed_request = true
  /\ exists r,
       run (verify ControllerJs secret forged_request)
           (gateway_with_payment_in "authorized") = ([], Ok r)
       /\ status r = 400%Z
       /\ field r "verified" <> Some (JBool false)
       /\ run (verify ControllerJs secret signed_request)
              (failing_gateway misleading_error) = ([PaymentsFetch payment_id], Ok r).
Proof.
  split; [vm_compute; reflexivity|]. split; [vm_compute; reflexivity|].
  eexists. split; [vm_compute; reflexivity|].
  split; [reflexivity|]. split; [vm_compute; discriminate|].
  vm_compute. reflexivity.
Qed.

Lemma C8_listing_outcomes_witness :
  silent_gateway [] (PaymentsAll (listing_options clock clock)) = Pending
  /\ is_nullish unauthorized_error = false
  /\ run (Server.list_payments clock clock) silent_gateway
     = ([PaymentsAll (listing_options clock clock)], Ok timed_out_response)
  /\ run (Server.list_payments clock clock) (failing_gateway unauthorized_error)
     = ([PaymentsAll (listing_options clock clock)], Ok bad_credentials_response)
  /\ run (Controller.getAllPayments clock clock) (failing_gateway unauthorized_error)
     = ([PaymentsAll (listing_options clock clock)],
        Ok (listing_failed_controller JUndefined)).
Proof.
  split; [reflexivity|]. split; [reflexivity|]. split.
  - apply (proj1 (C8_listing_outcomes clock clock silent_gateway)). reflexivity.
  - destruct (proj1 (proj2 (C8_listing_outcomes clock clock
                              (failing_gateway unauthorized_error)))
                unauthorized_error eq_refl eq_refl)
      as (code & message & inner & description & Hcode & Hm & _ & _ & Hs & Hc).
    inversion Hcode. inversion Hm. subst code message.
    split; [exact Hs | exact Hc].
Defined.

(** C8, as stated, fails on the controller: a rejection with [statusCode]
    401 is answered 500, and a gateway that stays silent is not answered
    at all, there being no timer. *)
Lemma C8_counterexample :
  failing_gateway unauthorized_error [] (PaymentsAll (listing_options clock clock))
  = Rejects unauthorized_error
  /\ get unauthorized_error "statusCode" = Ok (JNum 401)
  /\ (exists r,
         outcome_of (Controller.getAllPayments clock clock)
                    (failing_gateway unauthorized_error) = Ok r
         /\ status r = 500%Z
         /\ status r <> 401%Z)
  /\ outcome_of (Controller.getAllPayments clock clock) silent_gateway = Hang
  /\ outcome_of (Controller.getAllPayments clock clock) silent_gateway
     <> Ok timed_out_response.
Proof.
  split; [reflexivity|]. split; [reflexivity|]. split.
  - eexists. split; [vm_compute; reflexivity|]. simpl. split; [reflexivity | lia].
  - split; [vm_compute; reflexivity | vm_compute; discriminate].
Qed.

(** C4.  The claim holds of the controller, which answers every correctly
    signed request for a payment in a state other than [authorized] and
    [captured] with 400 and an error that names the state, having made
    the fetch and no capture.  It fails on [server.js], which makes no
    capture either but raises its error inside the [try] of the capture
    block, whose [catch] answers 500: for the signed request of the
    scenario and a payment in the state [created], the controller answers
    400 "Payment in invalid state: created" and [server.js] 500
    "Payment in unexpected state: created". *)
Theorem C4_server_answers_500_to_unexpected_state :
  (forall (rt : Runtime) (any_secret : string)
          (req_body o p s a payment state : value) (text : string) (gw : gateway),
      reads req_body o p s a ->
      correctly_signed (hmac_key ControllerJs any_secret) req_body = true ->
      gw [] (PaymentsFetch p) = Resolves payment ->
      get payment "status" = Ok state ->
      strict_eq_string state "authorized" = false ->
      strict_eq_string state "captured" = false ->
      to_string state = Ok text ->
      exists r,
        run (verify ControllerJs any_secret req_body) gw = ([PaymentsFetch p], Ok r)
        /\ status r = 400%Z
        /\ field r "error" = Some (JStr ("Payment in invalid state: " ++ text)))
  /\ (forall (rt : Runtime) (impl : implementation) (any_secret : string)
             (req_body o p s a payment state : value) (text : string) (gw : gateway),
         reads req_body o p s a ->
         correctly_signed (hmac_key impl any_secret) req_body = true ->
         gw [] (PaymentsFetch p) = Resolves payment ->
         get payment "status" = Ok state ->
         strict_eq_string state "authorized" = false ->
         strict_eq_string state "captured" = false ->
         to_string state = Ok text ->
         captures (calls (verify impl any_secret req_body) gw) = [])
  /\ correctly_signed secret signed_request = true
  /\ gateway_with_payment_in "created" [] (PaymentsFetch payment_id)
     = Resolves (payment_in "created")
  /\ get (payment_in "created") "status" = Ok (JStr "created")
  /\ run (verify ControllerJs secret signed_request) (gateway_with_payment_in "created")
     = ([PaymentsFetch payment_id],
        Ok (status_json 400
              (JObj [("success", JBool false);
                     ("error", JStr "Payment in invalid state: created")])))
  /\ run (verify ServerJs secret signed_request) (gateway_with_payment_in "created")
     = ([PaymentsFetch payment_id],
        Ok (status_json 500
              (JObj [("verified", JBool true);
                     ("captured", JBool false);
                     ("error", JStr "Payment in unexpected state: created")])))
  /\ (forall r,
         outcome_of (verify ServerJs secret signed_request)
                    (gateway_with_payment_in "created") = Ok r ->
         ~ (400 <= status r < 500)%Z).
Proof.
  split; [|split].
  - intros rt' any_secret req_body o p s a payment state text gw
           Hr Hsigned Hf Hst Hauth Hcapt Htext.
    exists (unexpected_state_response ControllerJs text).
    split; [|split; reflexivity].
    exact (proj1 (unexpected_state_run ControllerJs any_secret req_body o p s a
                    payment state text gw Hr Hsigned Hf Hst Hauth Hcapt Htext)).
  - intros rt' impl any_secret req_body o p s a payment state text gw
           Hr Hsigned Hf Hst Hauth Hcapt Htext.
    exact (proj2 (unexpected_state_run impl any_secret req_body o p s a
                    payment state text gw Hr Hsigned Hf Hst Hauth Hcapt Htext)).
  - split; [vm_compute; reflexivity|]. split; [reflexivity|]. split; [reflexivity|].
    split; [vm_compute; reflexivity|]. split; [vm_compute; reflexivity|].
    intros r Hr.
    assert (H : outcome_of (verify ServerJs secret signed_request)
                           (gateway_with_payment_in "created")
                = Ok (unexpected_state_response ServerJs "created"))
      by (vm_compute; reflexivity).
    rewrite H in Hr. inversion Hr. simpl. lia.
Qed.

(** C5.  The claim holds of the controller, which treats every secret
    as it treats the trimmed secret, and fails on [server.js], which
    trims the secret for the SDK but not for the HMAC: with the secret
    "testsecret " (a trailing blank), the signature the gateway computes
    under "testsecret" is accepted by the controller, which goes on to
    fetch and capture, and rejected by [server.js] as invalid. *)
Theorem C5_server_hmac_key_not_trimmed :
  (forall (rt : Runtime) (any_secret : string) (req_body : value) (gw : gateway),
      run (verify ControllerJs any_secret req_body) gw
      = run (verify ControllerJs (Js.trim any_secret) req_body) gw)
  /\ Js.trim padded_secret = secret
  /\ correctly_signed secret signed_request = true
  /\ run (verify ControllerJs padded_secret signed_request)
         (gateway_with_payment_in "authorized")
     = ([PaymentsFetch payment_id;
         PaymentsCapture payment_id (JNum 500) (Some (JObj [("currency", JStr "INR")]))],
        Ok (captured_response ControllerJs false order_id payment_id
                              (payment_in "captured")))
  /\ run (verify ServerJs padded_secret signed_request)
         (gateway_with_payment_in "authorized")
     = ([], Ok (invalid_signature ServerJs))
  /\ Hmac.createHmac_sha256_hex padded_secret "order_ABC|pay_XYZ"
     <> Hmac.createHmac_sha256_hex (Js.trim padded_secret) "order_ABC|pay_XYZ".
Proof.
  split; [intros; apply controller_trims_secret|].
  split; [vm_compute; reflexivity|]. split; [vm_compute; reflexivity|].
  split; [vm_compute; reflexivity|]. split; [vm_compute; reflexivity|].
  vm_compute. discriminate.
Qed.

(** *** The further properties, on the requests of the scenario *)

Import Endpoints.

Lemma controller_unanswered_only_on_nullish_rejection_witness :
  outcome_of (Controller.verifyAndCapturePayment secret signed_request)
             (failing_gateway JNull) = Throw TypeError_nullish_read
  /\ exists log c x,
       calls (Controller.verifyAndCapturePayment secret signed_request)
             (failing_gateway JNull) = (log ++ [c])%list
       /\ failing_gateway JNull log c = Rejects x
       /\ is_nullish x = true.
Proof.
  assert (H : outcome_of (Controller.verifyAndCapturePayment secret signed_request)
                         (failing_gateway JNull) = Throw TypeError_nullish_read)
    by (vm_compute; reflexivity).
  split; [exact H|].
  exact (controller_unanswered_only_on_nullish_rejection
           secret signed_request TypeError_nullish_read (failing_gateway JNull) H).
Defined.

Lemma nullish_rejection_of_fetch_witness :
  correctly_signed (hmac_key ServerJs secret) signed_request = true
  /\ failing_gateway JUndefined [] (PaymentsFetch payment_id) = Rejects JUndefined
  /\ run (verify ServerJs secret signed_request) (failing_gateway JUndefined)
     = ([PaymentsFetch payment_id], Ok internal_error_server).
Proof.
  split; [vm_compute; reflexivity|]. split; [reflexivity|].
  apply (nullish_rejection_of_fetch ServerJs secret signed_request order_id payment_id
           good_signature (JNum 500) JUndefined (failing_gateway JUndefined)).
  - repeat split; reflexivity.
  - vm_compute. reflexivity.
  - reflexivity.
  - reflexivity.
Defined.

Lemma verify_waits_for_the_gateway_witness :
  correctly_signed (hmac_key ControllerJs secret) signed_request = true
  /\ run (verify ControllerJs secret signed_request) silent_gateway
     = ([PaymentsFetch payment_id], Hang).
Proof.
  split; [vm_compute; reflexivity|].
  apply (verify_waits_for_the_gateway ControllerJs secret signed_request order_id
           payment_id good_signature (JNum 500) silent_gateway).
  - repeat split; reflexivity.
  - vm_compute. reflexivity.
  - reflexivity.
Defined.

Lemma controller_relays_gateway_description_witness :
  correctly_signed (trim secret) signed_request = true
  /\ outcome_of (Controller.verifyAndCapturePayment secret signed_request)
                (failing_gateway unauthorized_error)
     = Ok (status_json 400 (JObj [("success", JBool false);
                                  ("error", JStr "Authentication failed")])).
Proof.
  split; [vm_compute; reflexivity|].
  apply (controller_relays_gateway_description secret signed_request order_id
           payment_id good_signature (JNum 500) unauthorized_error
           (JObj [("code", JStr "BAD_REQUEST_ERROR");
                  ("description", JStr "Authentication failed")])
           (JStr "Authentication failed") (failing_gateway unauthorized_error)).
  - repeat split; reflexivity.
  - vm_compute. reflexivity.
  - reflexivity.
  - reflexivity.
  - reflexivity.
  - reflexivity.
  - left. reflexivity.
Defined.

Lemma fetched_nothing_witness :
  correctly_signed (hmac_key ServerJs secret) signed_request = true
  /\ calls (verify ServerJs secret signed_request) empty_handed_gateway
     = [PaymentsFetch payment_id]
  /\ exists r,
       outcome_of (verify ServerJs secret signed_request) empty_handed_gateway = Ok r
       /\ status r = 500%Z
       /\ reports_failure_after_verification ServerJs r.
Proof.
  split; [vm_compute; reflexivity|].
  apply (fetched_nothing ServerJs secret signed_request order_id payment_id
           good_signature (JNum 500) JNull empty_handed_gateway).
  - repeat split; reflexivity.
  - vm_compute. reflexivity.
  - reflexivity.
  - reflexivity.
Defined.

Lemma accepted_signature_shape_witness :
  calls (verify ServerJs secret signed_request) (gateway_with_payment_in "captured")
  <> []
  /\ exists signature,
       get signed_request "razorpay_signature" = Ok (JStr signature)
       /\ String.length signature = 64%nat
       /\ all_chars is_lower_hex signature = true.
Proof.
  assert (H : calls (verify ServerJs secret signed_request)
                    (gateway_with_payment_in "captured") <> [])
    by (vm_compute; discriminate).
  split; [exact H|].
  exact (accepted_signature_shape ServerJs secret signed_request
           (gateway_with_payment_in "captured") H).
Defined.

Lemma signed_text_determines_ids_witness :
  has_bar "order_ABC" = false
  /\ signing_text (JStr "order_ABC") (JStr "pay_XYZ")
     = signing_text (JStr "order_ABC") (JStr "pay_XYZ")
  /\ ("order_ABC" = "order_ABC" /\ "pay_XYZ" = "pay_XYZ").
Proof.
  split; [reflexivity|]. split; [reflexivity|].
  apply (signed_text_determines_ids "order_ABC" "pay_XYZ" "order_ABC" "pay_XYZ");
    reflexivity.
Defined.

(** The signature of (order_A|B, pay_C) is taken for (order_A, B|pay_C). *)
Lemma delimiter_not_escaped_witness :
  let signature :=
    JStr "45deafbaa16e5132e6a166b19aea66064053429948e6d1f1ca3eb1a7b758ce6e" in
  calls (verify ServerJs secret
           (verification_body (JStr ("order_A" ++ "|" ++ "B")) (JStr "pay_C")
                              signature (JNum 500)))
        (gateway_with_payment_in "captured") <> []
  /\ calls (verify ServerJs secret
              (verification_body (JStr "order_A") (JStr ("B" ++ "|" ++ "pay_C"))
                                 signature (JNum 500)))
           (gateway_with_payment_in "captured") <> [].
Proof.
  cbv zeta.
  assert (H : calls (verify ServerJs secret
                       (verification_body (JStr ("order_A" ++ "|" ++ "B")) (JStr "pay_C")
                          (JStr "45deafbaa16e5132e6a166b19aea66064053429948e6d1f1ca3eb1a7b758ce6e")
                          (JNum 500)))
                    (gateway_with_payment_in "captured") <> [])
    by (vm_compute; discriminate).
  assert (Ha : "order_A" <> "") by discriminate.
  assert (Hc : "pay_C" <> "") by discriminate.
  split; [exact H|].
  exact (proj1 (delimiter_not_escaped ServerJs secret "order_A" "B" "pay_C"
                  (JStr "45deafbaa16e5132e6a166b19aea66064053429948e6d1f1ca3eb1a7b758ce6e")
                  (JNum 500)
                  (gateway_with_payment_in "captured")
                  (gateway_with_payment_in "captured") Ha Hc) H).
Defined.

Lemma create_order_places_witness :
  let req_body := JObj [("amount", JNum 500); ("currency", JNull)] in
  get req_body "currency" = Ok JNull
  /\ calls (create ControllerJs clock req_body) (gateway_with_payment_in "created")
     = [OrdersCreate (JObj [("amount", JNum 50000);
                            ("currency", JNull);
                            ("receipt", JStr "order_1700000000000")])].
Proof.
  cbv zeta. split; [reflexivity|].
  destruct (create_order_places ControllerJs clock
              (JObj [("amount", JNum 500); ("currency", JNull)])
              (JNum 500) JNull 500%float (gateway_with_payment_in "created")
              eq_refl eq_refl eq_refl) as [Hcalls _].
  rewrite Hcalls. vm_compute. reflexivity.
Defined.

Lemma create_order_does_not_validate_witness :
  get (JObj []) "amount" = Ok JUndefined
  /\ exists x,
       calls (create ServerJs clock (JObj [])) (gateway_with_payment_in "created")
       = [OrdersCreate (JObj [("amount", JNum x);
                              ("currency", JStr "INR");
                              ("receipt", JStr "order_1700000000000")])]
       /\ PrimFloat.is_nan x = true.
Proof.
  split; [reflexivity|].
  destruct (create_order_does_not_validate ServerJs clock (JObj []) JUndefined
              JUndefined (gateway_with_payment_in "created")
              eq_refl eq_refl (or_introl eq_refl)) as (x & Hcalls & Hnan & _).
  exists x. split; [|exact (Hnan eq_refl)].
  rewrite Hcalls. vm_compute. reflexivity.
Defined.

Lemma listing_nullish_rejection_witness :
  failing_gateway JNull [] (PaymentsAll (listing_options clock clock)) = Rejects JNull
  /\ run (list_all ServerJs clock clock) (failing_gateway JNull)
     = ([PaymentsAll (listing_options clock clock)], Throw TypeError_nullish_read).
Proof.
  split; [reflexivity|].
  apply (listing_nullish_rejection ServerJs clock clock JNull (failing_gateway JNull));
    reflexivity.
Defined.

Lemma timeout_answer_is_ambiguous_witness :
  get gateway_timeout_error "message" = Ok (JStr "Request timed out")
  /\ run (Server.list_payments clock clock) (failing_gateway gateway_timeout_error)
     = run (Server.list_payments clock clock) silent_gateway.
Proof.
  split; [reflexivity|].
  apply (timeout_answer_is_ambiguous clock clock gateway_timeout_error (JNum 504)
           (failing_gateway gateway_timeout_error) silent_gateway); reflexivity.
Defined.

(** The log of a forged request holds the signature that would have been
    accepted. *)
Lemma expected_signature_is_logged_witness :
  reads forged_request order_id payment_id bad_signature (JNum 500)
  /\ In (Logger.mkEntry "INFO" "Signature verification:"
           (JObj [("received", bad_signature);
                  ("expected", good_signature);
                  ("matches", JBool false)]))
        (Logged.entries (logged_verify ServerJs secret forged_request)
                        (gateway_with_payment_in "authorized")).
Proof.
  assert (Hr : reads forged_request order_id payment_id bad_signature (JNum 500))
    by (repeat split; reflexivity).
  split; [exact Hr|].
  pose proof (proj1 (expected_signature_is_logged ServerJs secret forged_request
                       order_id payment_id bad_signature (JNum 500)
                       "order_ABC|pay_XYZ" (gateway_with_payment_in "authorized")
                       Hr eq_refl eq_refl)) as H.
  vm_compute in H. vm_compute. exact H.
Defined.

Lemma success_means_captured_witness :
  outcome_of (verify ControllerJs secret signed_request)
             (gateway_with_payment_in "captured")
  = Ok (captured_response ControllerJs true order_id payment_id (payment_in "captured"))
  /\ correctly_signed (hmac_key ControllerJs secret) signed_request = true.
Proof.
  assert (H : outcome_of (verify ControllerJs secret signed_request)
                         (gateway_with_payment_in "captured")
              = Ok (captured_response ControllerJs true order_id payment_id
                                      (payment_in "captured")))
    by (vm_compute; reflexivity).
  split; [exact H|].
  exact (proj1 (success_means_captured ControllerJs secret signed_request
                  (gateway_with_payment_in "captured") _ H eq_refl)).
Defined.
